(** * naumen_api: the report lifecycle and the Service Level normalizer

    A shallow embedding of
      - [src/naumen_api/parser/service_level.py] ([parse],
        [_service_lavel_data_completion], [_formating_service_level_data]);
      - [src/clamp/crm/client.py] ([_get_crm_response], [_find_report_uuid],
        the request builders);
      - [src/naumen_api/naumen_api.py] (the [Client] class).

    Python values are modelled as the code has them: a raw table row is a
    [dict] from column label to cell text ([gmap string string]); the [days]
    dictionary is an insertion-ordered association list keyed by the day
    number; exceptions are an error monad; the remote session, [sleep] and
    the clock are explicit state. *)

From Stdlib Require Import ZArith Lia QArith Qround Ascii.
From stdpp Require Import base list strings gmap pretty.

Open Scope Z_scope.

(** ** The Python runtime the sources rely on *)

Module Py.

(** The exceptions of [src/naumen_api/exceptions.py], followed by the
    built-in ones the modelled statements can raise. *)
Inductive exn : Type :=
  | CantGetData
  | ConnectionsFailed
  | InvalidDate
  | KeyError (key : string)
  | ValueError
  | AttributeError.

Inductive Result (A : Type) : Type :=
  | Ok (a : A)
  | Raise (e : exn).
Arguments Ok {A} a.
Arguments Raise {A} e.

#[global] Instance exn_eq_dec : EqDecision exn.
Proof. solve_decision. Defined.
#[global] Instance result_eq_dec {A : Type} `{EqDecision A} : EqDecision (Result A).
Proof. solve_decision. Defined.

#[global] Instance result_ret : MRet Result := fun A a => Ok a.
#[global] Instance result_bind : MBind Result := fun A B f m =>
  match m with
  | Ok a => f a
  | Raise e => Raise e
  end.

(** [for x in xs: ...] with a body that may raise, collecting the results. *)
Fixpoint traverse {A B : Type} (f : A -> Result B) (xs : list A) : Result (list B) :=
  match xs with
  | [] => Ok []
  | x :: rest =>
      y ← f x;
      ys ← traverse f rest;
      Ok (y :: ys)
  end.

(** [d[key]] on a dict of strings. *)
Definition getitem (d : gmap string string) (key : string) : Result string :=
  match d !! key with
  | Some v => Ok v
  | None => Raise (KeyError key)
  end.

(** [dict(zip(keys, values))]: pairs are inserted left to right, so a label
    that occurs twice keeps its last value. *)
Definition dict_zip (keys values : list string) : gmap string string :=
  fold_left (fun d kv => <[kv.1 := kv.2]> d) (zip keys values) ∅.

(** [str(n)] for an int. *)
Definition str (n : Z) : string := pretty n.

(** [xs[lo:-1]] for a list and [0 <= lo]. *)
Definition slice_to_last {A : Type} (lo : nat) (xs : list A) : list A :=
  drop lo (take (length xs - 1)%nat xs).

(** [set(xs)], [len(s)] and [tuple(s)].  The iteration order of a Python set
    of strings is unspecified; [tuple_of_set] fixes one and no result below
    depends on which. *)
Definition set_of (xs : list string) : gset string := list_to_set xs.
Definition tuple_of_set (s : gset string) : list string := elements s.

(** The built-in conversions and float arithmetic used by the formatter.
    They are not part of the repository and are kept as an interface:
    [py_int s] is [int(s)], [py_float s] is [float(s)], [float_zero] the
    literal [0.0], [py_truediv a b] is [a / b] on two ints, [py_mul x k] is
    [x * k] and [py_round x n] is [round(x, n)]. *)
Class Builtins (float : Type) : Type := {
  py_int : string -> Result Z;
  py_float : string -> Result float;
  float_zero : float;
  py_truediv : Z -> Z -> float;
  py_mul : float -> Z -> float;
  py_round : float -> Z -> float;
}.

(** A Python [dict] with int keys whose order matters: insertion-ordered,
    keys unique.  [d[k] = v] overwrites in place or appends. *)
Fixpoint setitem {V : Type} (k : Z) (v : V) (d : list (Z * V)) : list (Z * V) :=
  match d with
  | [] => [(k, v)]
  | (k', v') :: rest =>
      if k' =? k then (k', v) :: rest else (k', v') :: setitem k v rest
  end.

End Py.

(** ** Calendar dates, after CPython's [datetime.date] *)

Module datetime.

Record date : Type := mkdate { year : Z; month : Z; day : Z }.

Definition _is_leap (y : Z) : bool :=
  (y mod 4 =? 0) && (negb (y mod 100 =? 0) || (y mod 400 =? 0)).

Definition _days_in_month (y m : Z) : Z :=
  if m =? 2 then (if _is_leap y then 29 else 28)
  else if (m =? 4) || (m =? 6) || (m =? 9) || (m =? 11) then 30
  else 31.

Definition _days_before_month (y m : Z) : Z :=
  nth (Z.to_nat m) [0; 0; 31; 59; 90; 120; 151; 181; 212; 243; 273; 304; 334] 0
  + (if (m >? 2) && _is_leap y then 1 else 0).

Definition _days_before_year (y : Z) : Z :=
  let y := y - 1 in y * 365 + y / 4 - y / 100 + y / 400.

Definition toordinal (d : date) : Z :=
  _days_before_year (year d) + _days_before_month (year d) (month d) + day d.

Definition valid (d : date) : bool :=
  (1 <=? year d) && (year d <=? 9999) &&
  (1 <=? month d) && (month d <=? 12) &&
  (1 <=? day d) && (day d <=? _days_in_month (year d) (month d)).

(** [d + timedelta(days=1)]. *)
Definition tomorrow (d : date) : date :=
  if day d <? _days_in_month (year d) (month d)
  then mkdate (year d) (month d) (day d + 1)
  else if month d <? 12 then mkdate (year d) (month d + 1) 1
  else mkdate (year d + 1) 1 1.

(** [(a - b).days]. *)
Definition days_between (a b : date) : Z := toordinal a - toordinal b.

(** [a == b], [a <= b] and [a < b]. *)
Definition eqb (a b : date) : bool :=
  (year a =? year b) && (month a =? month b) && (day a =? day b).
Definition leb (a b : date) : bool := toordinal a <=? toordinal b.
Definition le (a b : date) : Prop := toordinal a <= toordinal b.
Definition lt (a b : date) : Prop := toordinal a < toordinal b.

End datetime.

(** ** parser_base: what [service_level.py] imports from it *)

Module parser_base.
Import Py.

(** The two members of the [PageType] enumeration the sources name. *)
Inductive PageType : Type :=
  | REPORT_LIST_PAGE
  | SERVICE_LEVEL_REPORT_PAGE.

(** The HTML extraction helpers ([_validate_text_for_parsing],
    [_parse_date_report], [_get_columns_name], [_forming_days_collecion])
    and BeautifulSoup's [find]/[find_all] are external to the verified core
    and enter as an interface.  [find_table_rows soup id] stands for
    [soup.find("table", id=id).find_all("tr")]. *)
Class HtmlHelpers (Soup Tr : Type) : Type := {
  _validate_text_for_parsing : string -> Result unit;
  BeautifulSoup : string -> Soup;
  _parse_date_report : Soup -> string -> string -> Result (datetime.date * datetime.date);
  _get_columns_name : Soup -> Result (list string);
  find_table_rows : Soup -> string -> Result (list Tr);
  _forming_days_collecion :
    list Tr -> list string -> PageType -> Result (list (gmap string string));
}.

Fixpoint date_steps (n : nat) (d : datetime.date) : list datetime.date :=
  match n with
  | O => []
  | S n' => d :: date_steps n' (datetime.tomorrow d)
  end.

(** Modelled from the spec: [_get_date_range] of parser_base.py is not among
    the sources.  The spec has the day buckets cover "the closed date range
    [start_date, end_date] inclusive - no gaps, no extras": every calendar
    day from [start_date] to [end_date], in order; empty when [end_date] is
    before [start_date]. *)
Definition _get_date_range (start_date end_date : datetime.date) : list datetime.date :=
  date_steps (Z.to_nat (datetime.days_between end_date start_date + 1)) start_date.

(** Modelled from the spec: [_forming_days_dict] of parser_base.py is not
    among the sources.  The spec's DayBucket is a "mapping from calendar
    day-of-month (integer) to a list of RawRow entries belonging to that
    day", "built to cover every day in the requested date range, including
    days with zero source rows".  A row belongs to a day when its day cell
    is the text of the day number (the text the completion step writes into
    the rows it adds). *)
Definition _forming_days_dict (date_range : list datetime.date)
    (day_collection : list (gmap string string)) (report : PageType)
    : list (Z * list (gmap string string)) :=
  fold_left
    (fun days d =>
       let day := datetime.day d in
       setitem day
         (filter (fun row => row !! "День" = Some (str day)) day_collection)
         days)
    date_range [].

End parser_base.

(** ** src/naumen_api/parser/service_level.py *)

Module service_level.
Import Py parser_base.

(** The process-wide configuration: the one entry [parse] reads,
    [CONFIG.config["defaul_group_name"]["value"]]. *)
Record Config : Type := { defaul_group_name : list string }.

(** The [day] attribute holds the dictionary key (an int) or the text of a
    day cell, whichever the formatter last assigned to its [day] variable. *)
Inductive day_value : Type :=
  | DayKey (d : Z)
  | DayCell (s : string).

Record ServiceLevel (float : Type) : Type := mkServiceLevel {
  day : day_value;
  group : string;
  total_issues : Z;
  total_primary_issues : Z;
  num_issues_before_deadline : Z;
  num_issues_after_deadline : Z;
  service_level : float;
}.
Arguments mkServiceLevel {float}.
Arguments day {float}.
Arguments group {float}.
Arguments total_issues {float}.
Arguments total_primary_issues {float}.
Arguments num_issues_before_deadline {float}.
Arguments num_issues_after_deadline {float}.
Arguments service_level {float}.

Definition support_group_count : Z := 2.

(** The row the completion step writes for [group] on [day]. *)
Definition zero_row (lable : list string) (day : Z) (group sl : string)
    : gmap string string :=
  dict_zip lable [str day; group; "0"; "0"; "0"; "0"; sl].

(** [sl] as chosen at the top of the loop body. *)
Definition sl_of_day (today day : Z) : string :=
  if today >=? day then "100.0" else "0.0".

(** The inner [for group in groups] loop: [day_groups] was read once before
    it, rows are appended to the day's list. *)
Definition append_missing (lable : list string) (day : Z) (sl : string)
    (day_groups groups : list string) (content : list (gmap string string))
    : list (gmap string string) :=
  fold_left
    (fun rows group =>
       if bool_decide (group ∈ day_groups) then rows
       else rows ++ [zero_row lable day group sl])
    groups content.

(** One iteration of [for day, content in days.items()]; the result is the
    value of [days[day]] after it. *)
Definition complete_day (today : Z) (groups lable : list string)
    (day : Z) (content : list (gmap string string))
    : Result (list (gmap string string)) :=
  let sl := sl_of_day today day in
  if (length content =? 0)%nat then
    Ok (map (fun group => zero_row lable day group sl) groups)
  else if negb (length content =? 2)%nat then
    day_groups ← traverse (fun row => getitem row "Группа") content;
    Ok (append_missing lable day sl day_groups groups content)
  else Ok content.

(** [_service_lavel_data_completion(days, groups, lable)], with the clock
    read by [datetime.now()] as the argument [now].  Each iteration assigns
    only to its own key, so the loop is a traversal of the entries. *)
Definition _service_lavel_data_completion (now : datetime.date)
    (days : list (Z * list (gmap string string))) (groups lable : list string)
    : Result (list (Z * list (gmap string string))) :=
  let today := datetime.day now in
  traverse
    (fun entry =>
       content ← complete_day today groups lable entry.1 entry.2;
       Ok (entry.1, content))
    days.

Section formatting.
Context {float : Type} `{!Builtins float}.

(** The reads and conversions of one pass of [for data in group_data]. *)
Definition format_row (data : gmap string string) : Result (ServiceLevel float) :=
  day ← getitem data "День";
  group ← getitem data "Группа";
  total_issues ← getitem data "Поступило в ТП" ≫= py_int;
  total_primary_issues ← getitem data "Количество первичных" ≫= py_int;
  num_issues_before_deadline ← getitem data "Принято за 15 минут" ≫= py_int;
  num_issues_after_deadline ← getitem data "В очереди более 15 мин" ≫= py_int;
  service_level ← getitem data "Service Level (%)" ≫= py_float;
  Ok (mkServiceLevel (DayCell day) group total_issues total_primary_issues
        num_issues_before_deadline num_issues_after_deadline service_level).

(** The local variables of the outer loop body that the inner loop updates. *)
Record day_state : Type := mkDayState {
  cur_day : day_value;
  gen_total_issues : Z;
  gen_total_primary_issues : Z;
  gen_num_issues_before_deadline : Z;
  gen_num_issues_after_deadline : Z;
  day_collection : list (ServiceLevel float);
}.

Definition accumulate (st : day_state) (sl : ServiceLevel float) : day_state :=
  mkDayState (day sl)
    (gen_total_issues st + total_issues sl)
    (gen_total_primary_issues st + total_primary_issues sl)
    (gen_num_issues_before_deadline st + num_issues_before_deadline sl)
    (gen_num_issues_after_deadline st + num_issues_after_deadline sl)
    (day_collection st ++ [sl]).

Fixpoint format_rows (group_data : list (gmap string string)) (st : day_state)
    : Result day_state :=
  match group_data with
  | [] => Ok st
  | data :: rest =>
      sl ← format_row data;
      format_rows rest (accumulate st sl)
  end.

(** [gen_service_level] after the [if gen_total_issues:] statement. *)
Definition total_service_level (before total : Z) : float :=
  if total =? 0 then float_zero
  else py_round (py_mul (py_truediv before total) 100) 1.

(** The record appended under the group name "Итог". *)
Definition total_record (st : day_state) : ServiceLevel float :=
  mkServiceLevel (cur_day st) "Итог"
    (gen_total_issues st) (gen_total_primary_issues st)
    (gen_num_issues_before_deadline st) (gen_num_issues_after_deadline st)
    (total_service_level (gen_num_issues_before_deadline st) (gen_total_issues st)).

(** One iteration of [for day, group_data in days.items()]. *)
Definition format_day (entry : Z * list (gmap string string))
    : Result (list (ServiceLevel float)) :=
  st ← format_rows entry.2 (mkDayState (DayKey entry.1) 0 0 0 0 []);
  Ok (day_collection st ++ [total_record st]).

Definition _formating_service_level_data
    (days : list (Z * list (gmap string string)))
    : Result (list (list (ServiceLevel float))) :=
  traverse format_day days.

Context {Soup Tr : Type} `{!HtmlHelpers Soup Tr}.

(** The group names [parse] continues with, from the set found in the rows.
    [len(group) == support_group_count / 2] compares an int with the float
    quotient, which holds exactly when twice the length is the count. *)
Definition resolve_groups (cfg : Config) (group : gset string)
    : Result (gset string) :=
  if (size group =? 0)%nat then Raise CantGetData
  else if Z.of_nat (size group) * 2 =? support_group_count then
    let default_group := defaul_group_name cfg in
    let group := set_of (default_group ++ elements group) in
    if negb (Z.of_nat (size group) =? support_group_count) then Raise CantGetData
    else Ok group
  else Ok group.

(** [parse(text)], with the clock and the configuration as arguments. *)
Definition parse (now : datetime.date) (cfg : Config) (text : string)
    : Result (list (list (ServiceLevel float))) :=
  _ ← _validate_text_for_parsing text;
  let soup := BeautifulSoup text in
  dates ← _parse_date_report soup "Дата перевода, с" "Дата перевода, по";
  let start_date := dates.1 in
  let end_date := dates.2 in
  if datetime.eqb start_date end_date then Ok []
  else
    label ← _get_columns_name soup;
    data_table ← find_table_rows soup "stdViewpart0.part0_TableList";
    let data_table := slice_to_last 3 data_table in
    day_collection ←
      _forming_days_collecion data_table label SERVICE_LEVEL_REPORT_PAGE;
    let date_range := _get_date_range start_date end_date in
    let days :=
      _forming_days_dict date_range day_collection SERVICE_LEVEL_REPORT_PAGE in
    names ← traverse (fun row => getitem row "Группа") day_collection;
    group ← resolve_groups cfg (set_of names);
    days ← _service_lavel_data_completion now days (tuple_of_set group) label;
    _formating_service_level_data days.

End formatting.

End service_level.

(** ** Executable stand-ins for the interfaces

    Used to run the model on concrete pages; every general result below is
    stated for all instances of the interfaces. *)

Module reference.
Import Py parser_base service_level.

Definition digit (c : ascii) : option Z :=
  let n := Z.of_N (N_of_ascii c) in
  if (48 <=? n) && (n <=? 57) then Some (n - 48) else None.

Fixpoint digits (acc : Z) (s : string) : option Z :=
  match s with
  | EmptyString => Some acc
  | String c rest =>
      match digit c with
      | Some d => digits (acc * 10 + d) rest
      | None => None
      end
  end.

(** Signed ASCII decimal numerals. *)
Definition ref_int (s : string) : Result Z :=
  match s with
  | EmptyString => Raise ValueError
  | String "-"%char (String _ _ as rest) =>
      match digits 0 rest with
      | Some n => Ok (- n)
      | None => Raise ValueError
      end
  | _ =>
      match digits 0 s with
      | Some n => Ok n
      | None => Raise ValueError
      end
  end.

Fixpoint split_dot (s : string) : string * option string :=
  match s with
  | EmptyString => (EmptyString, None)
  | String "."%char rest => (EmptyString, Some rest)
  | String c rest =>
      let (a, b) := split_dot rest in (String c a, b)
  end.

(** Decimal numerals [ddd] or [ddd.ddd] read as exact rationals. *)
Definition ref_float (s : string) : Result Q :=
  match split_dot s with
  | (whole, None) =>
      match ref_int whole with
      | Ok n => Ok (inject_Z n)
      | Raise e => Raise e
      end
  | (whole, Some frac) =>
      match ref_int whole, digits 0 frac with
      | Ok n, Some f =>
          let scale := 10 ^ Z.of_nat (String.length frac) in
          Ok (Qred (Qmake (n * scale + (if n <? 0 then - f else f)) (Z.to_pos scale)))
      | _, _ => Raise ValueError
      end
  end.

(** Rounding to [n] decimals, ties to even, on exact rationals. *)
Definition ref_round (x : Q) (n : Z) : Q :=
  let scale := 10 ^ n in
  let y := Qmult x (inject_Z scale) in
  let lo := Qfloor y in
  let twice := Qminus (Qmult (inject_Z 2) y) (inject_Z (2 * lo + 1)) in
  let k :=
    match Qcompare twice (inject_Z 0) with
    | Lt => lo
    | Gt => lo + 1
    | Eq => if Z.even lo then lo else lo + 1
    end in
  Qred (Qmake k (Z.to_pos scale)).

#[global] Instance ref_builtins : Builtins Q := {|
  py_int := ref_int;
  py_float := ref_float;
  float_zero := inject_Z 0;
  py_truediv a b := Qred (Qdiv (inject_Z a) (inject_Z b));
  py_mul x k := Qred (Qmult x (inject_Z k));
  py_round := ref_round;
|}.

(** A page that has already been taken apart: its two report dates, its
    column labels and the cells of every [tr] of its table. *)
Record Page : Type := mkPage {
  report_dates : datetime.date * datetime.date;
  columns : list string;
  table_rows : list (list string);
}.

(** Helpers that answer from a fixed [Page], whatever the text. *)
Definition page_helpers (p : Page) : HtmlHelpers Page (list string) := {|
  _validate_text_for_parsing _ := Ok tt;
  BeautifulSoup _ := p;
  _parse_date_report soup _ _ := Ok (report_dates soup);
  _get_columns_name soup := Ok (columns soup);
  find_table_rows soup _ := Ok (table_rows soup);
  _forming_days_collecion trs label _ := Ok (map (dict_zip label) trs);
|}.

(** The column labels of the Service Level table, in the order the
    completion step fills them. *)
Definition sl_columns : list string :=
  ["День"; "Группа"; "Поступило в ТП"; "Количество первичных";
   "Принято за 15 минут"; "В очереди более 15 мин"; "Service Level (%)"].

(** A table with three leading rows and one trailing row around [body]. *)
Definition framed (body : list (list string)) : list (list string) :=
  [[]; []; []] ++ body ++ [[]].

Definition parse_page (now : datetime.date) (cfg : Config) (p : Page)
    : Result (list (list (ServiceLevel Q))) :=
  @parse Q ref_builtins Page (list string) (page_helpers p) now cfg "".

End reference.

(** ** Vocabulary of the statements *)

Module properties.
Import Py parser_base service_level reference.

Section vocabulary.
Context {float : Type} `{!Builtins float}.
Context {Soup Tr : Type} `{!HtmlHelpers Soup Tr}.

(** [sum(f(r) for r in recs)]. *)
Definition sum_of (f : ServiceLevel float -> Z) (recs : list (ServiceLevel float)) : Z :=
  foldr (fun r acc => f r + acc) 0 recs.

(** The page passes validation and carries the two report dates. *)
Definition page_dates (text : string) (start_date end_date : datetime.date) : Prop :=
  _validate_text_for_parsing text = Ok tt /\
  _parse_date_report (BeautifulSoup text) "Дата перевода, с" "Дата перевода, по"
    = Ok (start_date, end_date).

(** The page's table has the column labels [label] and, between its three
    leading rows and its trailing row, the rows [day_collection]. *)
Definition page_table (text : string) (label : list string)
    (day_collection : list (gmap string string)) : Prop :=
  _get_columns_name (BeautifulSoup text) = Ok label /\
  exists trs,
    find_table_rows (BeautifulSoup text) "stdViewpart0.part0_TableList" = Ok trs /\
    _forming_days_collecion (slice_to_last 3 trs) label SERVICE_LEVEL_REPORT_PAGE
      = Ok day_collection.

(** The last two statements of [parse], for the resolved group names. *)
Definition complete_and_format (now : datetime.date)
    (days : list (Z * list (gmap string string))) (label : list string)
    (group : gset string) : Result (list (list (ServiceLevel float))) :=
  days ← _service_lavel_data_completion now days (tuple_of_set group) label;
  _formating_service_level_data days.

(** [recs] is the records of [rows], in order, followed by one record named
    "Итог" whose four counts are the sums over the records before it. *)
Definition counts_summed (rows : list (gmap string string))
    (recs : list (ServiceLevel float)) : Prop :=
  exists groups total,
    recs = groups ++ [total] /\
    Forall2 (fun row r => format_row row = Ok r) rows groups /\
    group total = "Итог" /\
    total_issues total = sum_of total_issues groups /\
    total_primary_issues total = sum_of total_primary_issues groups /\
    num_issues_before_deadline total = sum_of num_issues_before_deadline groups /\
    num_issues_after_deadline total = sum_of num_issues_after_deadline groups.

(** [recs] is one record per row of [rows] followed by the record named
    "Итог", whose service level is recomputed from its own counts. *)
Definition level_recomputed (rows : list (gmap string string))
    (recs : list (ServiceLevel float)) : Prop :=
  exists groups total,
    recs = groups ++ [total] /\
    Forall2 (fun row r => format_row row = Ok r) rows groups /\
    group total = "Итог" /\
    (total_issues total > 0 ->
       service_level total =
         py_round
           (py_mul (py_truediv (num_issues_before_deadline total) (total_issues total)) 100)
           1) /\
    (total_issues total = 0 -> service_level total = float_zero).

(** The buckets of [parse]: one per date of the range, keyed by the day
    number, holding the rows of [rows] whose day cell is that number. *)
Definition bucket_of (rows : list (gmap string string)) (d : datetime.date)
    : list (gmap string string) :=
  filter (fun row => row !! "День" = Some (str (datetime.day d))) rows.

(** [recs] is what [parse] returns for the date [d]: the bucket of [d],
    completed for the names in [group] and formatted. *)
Definition bucket_records (now : datetime.date) (label : list string)
    (group : gset string) (rows : list (gmap string string))
    (d : datetime.date) (recs : list (ServiceLevel float)) : Prop :=
  exists content,
    complete_day (datetime.day now) (tuple_of_set group) label (datetime.day d)
      (bucket_of rows d) = Ok content /\
    format_day (datetime.day d, content) = Ok recs.

End vocabulary.

(** No two rows of the table are for the same day and group. *)
Definition one_row_per_day_and_group (rows : list (gmap string string)) : Prop :=
  NoDup (map (fun row => (row !! "День", row !! "Группа")) rows).

(** C1 as the spec words it, for every page reader and every page. *)
Definition day_lists_as_stated : Prop :=
  forall (float : Type) (B : Builtins float) (Soup Tr : Type)
         (H : HtmlHelpers Soup Tr) now cfg text start_date end_date
         (out : list (list (ServiceLevel float))),
    page_dates text start_date end_date ->
    datetime.valid start_date = true ->
    datetime.valid end_date = true ->
    datetime.le start_date end_date ->
    parse now cfg text = Ok out ->
    length out = Z.to_nat (datetime.days_between end_date start_date + 1) /\
    forall label rows names group,
      page_table text label rows ->
      traverse (fun row => getitem row "Группа") rows = Ok names ->
      resolve_groups cfg (set_of names) = Ok group ->
      Forall (fun recs => length recs = S (size group)) out.

(** [row] is the zero-valued row of [group] for [day], with the service
    level text [sl]. *)
Definition is_zero_row (row : gmap string string) (day : Z) (group sl : string)
    : Prop :=
  row !! "День" = Some (str day) /\
  row !! "Группа" = Some group /\
  row !! "Поступило в ТП" = Some "0" /\
  row !! "Количество первичных" = Some "0" /\
  row !! "Принято за 15 минут" = Some "0" /\
  row !! "В очереди более 15 мин" = Some "0" /\
  row !! "Service Level (%)" = Some sl.

(** The service level text of a synthesized row for the date [d], by the
    calendar: 100.0 when [d] is on or before today, 0.0 when it is after. *)
Definition sl_by_date (now d : datetime.date) : string :=
  if datetime.leb d now then "100.0" else "0.0".

Definition same_month (a b : datetime.date) : Prop :=
  datetime.year a = datetime.year b /\ datetime.month a = datetime.month b.

(** The known groups that none of the names [names] of a bucket's rows has. *)
Definition missing_groups (names groups : list string) : list string :=
  filter (fun g => g ∉ names) groups.

(** What the completion step does to one bucket: the rows already there
    stay in place; zero rows are added for every known group when the
    bucket was empty, for no group when it held exactly two rows, and for
    the missing groups otherwise; for a bucket of the current month their
    service level follows the calendar. *)
Definition filled_by_design (now : datetime.date) (groups : list string)
    (entry entry' : Z * list (gmap string string)) : Prop :=
  entry'.1 = entry.1 /\
  exists added rows sl,
    entry'.2 = entry.2 ++ rows /\
    Forall2 (fun g row => is_zero_row row entry.1 g sl) added rows /\
    (forall d, same_month d now -> datetime.day d = entry.1 -> sl = sl_by_date now d) /\
    (entry.2 = [] -> added = groups) /\
    (length entry.2 = 2%nat -> added = []) /\
    (entry.2 <> [] -> length entry.2 <> 2%nat ->
       exists names,
         traverse (fun row => getitem row "Группа") entry.2 = Ok names /\
         added = missing_groups names groups).

(** A day's bucket is complete: exactly one row per known group. *)
Definition complete_bucket (groups : list string)
    (content : list (gmap string string)) : Prop :=
  exists names,
    traverse (fun row => getitem row "Группа") content = Ok names /\
    names ≡ₚ groups.

End properties.

(** ** Concrete pages, buckets and sessions *)

Module examples.
Import Py parser_base service_level reference.

Definition groups_config : Config := {| defaul_group_name := ["first"; "vip"] |}.

Definition october_20 : datetime.date := datetime.mkdate 2022 10 20.
Definition october_5 : datetime.date := datetime.mkdate 2022 10 5.
Definition october_6 : datetime.date := datetime.mkdate 2022 10 6.

(** A report for 5 and 6 October: both groups on the 6th, one on the 5th. *)
Definition two_day_page : Page :=
  mkPage (october_5, october_6) sl_columns
    (framed
       [["5"; "first"; "10"; "4"; "8"; "2"; "80.0"];
        ["6"; "first"; "3"; "1"; "3"; "0"; "100.0"];
        ["6"; "vip"; "4"; "2"; "1"; "3"; "25.0"]]).

Definition two_day_rows : list (gmap string string) :=
  map (dict_zip sl_columns) (slice_to_last 3 (table_rows two_day_page)).

Definition two_day_report : list (list (ServiceLevel Q)) :=
  Eval vm_compute in
    match parse_page october_20 groups_config two_day_page with
    | Ok out => out
    | Raise _ => []
    end.

(** A report whose two dates are the same day. *)
Definition single_day_page : Page :=
  mkPage (october_5, october_5) sl_columns
    (framed [["5"; "first"; "10"; "4"; "8"; "2"; "80.0"]]).

(** A report in which only one group shows, under a name that is not one of
    the configured defaults. *)
Definition renamed_group_page : Page :=
  mkPage (october_5, october_6) sl_columns
    (framed [["5"; "night shift"; "10"; "4"; "8"; "2"; "80.0"]]).

Definition first_row : gmap string string :=
  dict_zip sl_columns ["5"; "first"; "10"; "4"; "8"; "2"; "80.0"].
Definition vip_row : gmap string string :=
  dict_zip sl_columns ["5"; "vip"; "4"; "2"; "1"; "3"; "25.0"].

(** Buckets: the 5th holds one group, the 6th is empty. *)
Definition sparse_days : list (Z * list (gmap string string)) :=
  [(5, [first_row]); (6, [])].

Definition sparse_days_completed : list (Z * list (gmap string string)) :=
  [(5, [first_row; zero_row sl_columns 5 "vip" "100.0"]);
   (6, [zero_row sl_columns 6 "first" "100.0"; zero_row sl_columns 6 "vip" "100.0"])].

(** Buckets: the 5th holds both groups. *)
Definition full_days : list (Z * list (gmap string string)) :=
  [(5, [first_row; vip_row])].

Definition full_days_report : list (list (ServiceLevel Q)) :=
  Eval vm_compute in
    match _formating_service_level_data full_days with
    | Ok out => out
    | Raise _ => []
    end.

End examples.

(** ** src/clamp/crm/client.py: building the requests *)

Module request_builders.
Import Py.

(** A Python [dict] with string keys whose order matters: [d.get(k)] and
    [d[k] = v], which overwrites in place or appends. *)
Fixpoint odict_get {V : Type} (k : string) (d : list (string * V)) : option V :=
  match d with
  | [] => None
  | (k', v) :: rest => if String.eqb k' k then Some v else odict_get k rest
  end.

Fixpoint odict_set {V : Type} (k : string) (v : V) (d : list (string * V))
    : list (string * V) :=
  match d with
  | [] => [(k, v)]
  | (k', v') :: rest =>
      if String.eqb k' k then (k', v) :: rest else (k', v') :: odict_set k v rest
  end.

(** [Mapping[str, Mapping[Literal['name','value'], str]]]: the form fields
    of the configuration, each a small dict of its own. *)
Definition Fields : Type := list (string * list (string * string)).

(** [[val for _, val in root_val.items()]] as an element of the sequence
    [dict(...)] is built from: it must have exactly two members. *)
Definition field_pair (root : string * list (string * string))
    : Result (string * string) :=
  match root.2 with
  | [(_, k); (_, v)] => Ok (k, v)
  | _ => Raise ValueError
  end.

(** [_params_erector(params)]. *)
Definition _params_erector (params : Fields) : Result (gmap string string) :=
  pairs ← traverse field_pair params;
  Ok (fold_left (fun d kv => <[kv.1 := kv.2]> d) pairs ∅).

(** [_get_report_name()], with the number [randint(1000000, 9999999)]
    returned as the argument [token]. *)
Definition _get_report_name (token : Z) : string := "ID" +:+ str token.

Record SearchOptions : Type := mkSearchOptions {
  name : string;
  delay_attems : Z;
  num_attems : Z;
  uuid : string;
}.

Record NaumenRequest : Type := mkNaumenRequest {
  url : string;
  headers : gmap string string;
  params : gmap string string;
  data : gmap string string;
  verify : bool;
}.

(** What [get_params_create_report(kind)] of the config package returns,
    in the order the builders unpack it. *)
Record ReportParams : Type := mkReportParams {
  cfg_url : string;
  cfg_uuid : string;
  cfg_headers : gmap string string;
  cfg_params : Fields;
  cfg_data : Fields;
  cfg_verify : bool;
  cfg_delay_attems : Z;
  cfg_num_attems : Z;
}.

(** [data[field]['value'] = value]: the field's own dict is updated in
    place; a field the configuration does not have is a [KeyError]. *)
Definition set_value (field value : string) (data : Fields) : Result Fields :=
  match odict_get field data with
  | Some inner => Ok (odict_set field (odict_set "value" value inner) data)
  | None => Raise (KeyError field)
  end.

(** [n] printed with at least [width] digits. *)
Definition zero_padded (width : nat) (n : Z) : string :=
  let digits := str n in
  String.concat "" (replicate (width - String.length digits) "0") +:+ digits.

(** [d.strftime("%d.%m.%Y")]: day and month on two digits, the year on
    four. *)
Definition strftime_dmY (d : datetime.date) : string :=
  zero_padded 2 (datetime.day d) +:+ "." +:+
  zero_padded 2 (datetime.month d) +:+ "." +:+
  zero_padded 4 (datetime.year d).

Section builders.

(** [get_params_create_report] of the config package, which is not among
    the sources. *)
Variable get_params_create_report : string -> Result ReportParams.

Definition _create_request_issues_first_line (token : Z)
    : Result (NaumenRequest * SearchOptions) :=
  cfg ← get_params_create_report "issues";
  let name := _get_report_name token in
  data ← set_value "title" name (cfg_data cfg);
  data ← _params_erector data;
  params ← _params_erector (cfg_params cfg);
  let search_options :=
    mkSearchOptions name (cfg_delay_attems cfg) (cfg_num_attems cfg) (cfg_uuid cfg) in
  let request :=
    mkNaumenRequest (cfg_url cfg) (cfg_headers cfg) params data (cfg_verify cfg) in
  Ok (request, search_options).

Definition _create_request_issues_vip_line (token : Z)
    : Result (NaumenRequest * SearchOptions) :=
  cfg ← get_params_create_report "vip issues";
  let name := _get_report_name token in
  data ← set_value "title" name (cfg_data cfg);
  data ← _params_erector data;
  params ← _params_erector (cfg_params cfg);
  let search_options :=
    mkSearchOptions name (cfg_delay_attems cfg) (cfg_num_attems cfg) (cfg_uuid cfg) in
  let request :=
    mkNaumenRequest (cfg_url cfg) (cfg_headers cfg) params data (cfg_verify cfg) in
  Ok (request, search_options).

Definition _create_request_service_lavel (token : Z)
    (first_day last_day : datetime.date) (deadline : Z)
    : Result (NaumenRequest * SearchOptions) :=
  cfg ← get_params_create_report "service level report";
  let name := _get_report_name token in
  data ← set_value "title" name (cfg_data cfg);
  data ← set_value "first day" (strftime_dmY first_day) data;
  data ← set_value "last day" (strftime_dmY last_day) data;
  data ← set_value "deadline" (str deadline) data;
  data ← _params_erector data;
  params ← _params_erector (cfg_params cfg);
  let search_options :=
    mkSearchOptions name (cfg_delay_attems cfg) (cfg_num_attems cfg) (cfg_uuid cfg) in
  let request :=
    mkNaumenRequest (cfg_url cfg) (cfg_headers cfg) params data (cfg_verify cfg) in
  Ok (request, search_options).

End builders.

(** Every field of the configuration is a dict [{'name': n, 'value': v}]
    with [(n, v)] the pair at its position in [pairs], and no two fields
    share their key or their name. *)
Definition well_formed (fields : Fields) (pairs : list (string * string)) : Prop :=
  Forall2 (fun root pair => root.2 = [("name", pair.1); ("value", pair.2)])
    fields pairs /\
  NoDup fields.*1 /\
  NoDup pairs.*1.

(** The value of the last field that submits under the name [n]. *)
Definition last_value (n : string) (params : Fields) : option string :=
  last (omap
          (fun root =>
             match root.2 with
             | [(_, k); (_, v)] => if String.eqb k n then Some v else None
             | _ => None
             end)
          params).

(** The form name under which the configuration submits [field]. *)
Definition field_name (field : string) (fields : Fields) : option string :=
  match odict_get field fields with
  | Some ((_, n) :: _) => Some n
  | _ => None
  end.

End request_builders.

(** ** src/clamp/crm/client.py: the submitter and the locator *)

Module client.
Import Py parser_base request_builders.

(** What the code reads of [session.post(...)]'s result. *)
Record Response : Type := mkResponse { status_code : Z; text : string }.

(** The values of the attributes read off a request: a str, a bool or a
    mapping. *)
Inductive attribute : Type :=
  | AStr (s : string)
  | ABool (b : bool)
  | AMapping (m : gmap string string).

(** The objects that reach [_get_crm_response] as its [request].  Python
    does not check the annotation: the argument is a [NaumenRequest], or the
    list a starred assignment target is bound to, or an instance of some
    other class, given by its attributes. *)
Inductive object : Type :=
  | Tuple (request : NaumenRequest)
  | PyList (items : list NaumenRequest)
  | Instance (attrs : gmap string attribute).

(** [o.name].  A [NaumenRequest] has the five fields of its declaration
    ([url], [headers], [params], [data], [verify]), a list has none.  The
    methods of tuples and lists ([count], [index], [append], ...) are left
    out; no name the code reads is one of them. *)
Definition getattr (o : object) (name : string) : Result attribute :=
  match o with
  | Tuple request =>
      if String.eqb name "url" then Ok (AStr (url request))
      else if String.eqb name "headers" then Ok (AMapping (headers request))
      else if String.eqb name "params" then Ok (AMapping (params request))
      else if String.eqb name "data" then Ok (AMapping (data request))
      else if String.eqb name "verify" then Ok (ABool (verify request))
      else Raise AttributeError
  | PyList _ => Raise AttributeError
  | Instance attrs =>
      match attrs !! name with
      | Some v => Ok v
      | None => Raise AttributeError
      end
  end.

(** The keyword arguments of one [session.post(...)]. *)
Record Posted : Type := mkPosted {
  post_url : attribute;
  post_headers : attribute;
  post_params : attribute;
  post_data : attribute;
  post_verify : attribute;
}.

(** The observable effects: [sleep(seconds)] and [session.post(...)]. *)
Inductive Event : Type :=
  | Sleep (seconds : Z)
  | Post (sent : Posted).

(** The effects so far, oldest first, and the number of requests the remote
    end has served. *)
Record World : Type := mkWorld { trace : list Event; served : nat }.

#[global] Instance attribute_eq_dec : EqDecision attribute.
Proof. solve_decision. Defined.
#[global] Instance posted_eq_dec : EqDecision Posted.
Proof. solve_decision. Defined.
#[global] Instance event_eq_dec : EqDecision Event.
Proof. solve_decision. Defined.
#[global] Instance world_eq_dec : EqDecision World.
Proof. solve_decision. Defined.

(** [ActiveConnect]: the remote end answers the [i]-th request it receives. *)
Definition ActiveConnect : Type := nat -> Posted -> Response.

(** Computations that log effects and may raise. *)
Definition IO (A : Type) : Type := World -> Result A * World.

#[global] Instance io_ret : MRet IO := fun A a w => (Ok a, w).
#[global] Instance io_bind : MBind IO := fun A B f m w =>
  match m w with
  | (Ok a, w') => f a w'
  | (Raise e, w') => (Raise e, w')
  end.

Definition raise {A : Type} (e : exn) : IO A := fun w => (Raise e, w).
Definition lift {A : Type} (r : Result A) : IO A := fun w => (r, w).

(** [sleep(seconds)] for an int: a negative length is a [ValueError]. *)
Definition sleep (seconds : Z) : IO unit := fun w =>
  if seconds <? 0 then (Raise ValueError, w)
  else (Ok tt, mkWorld (trace w ++ [Sleep seconds]) (served w)).

Definition session_post (crm : ActiveConnect) (sent : Posted) : IO Response :=
  fun w =>
    (Ok (crm (served w) sent),
     mkWorld (trace w ++ [Post sent]) (S (served w))).

(** [_get_crm_response(crm, request)].  The five arguments of the call are
    evaluated left to right before the request is sent; the second one reads
    [request.header]. *)
Definition _get_crm_response (crm : ActiveConnect) (request : object) : IO string :=
  url ← lift (getattr request "url");
  headers ← lift (getattr request "header");
  params ← lift (getattr request "params");
  data ← lift (getattr request "data");
  verify ← lift (getattr request "verify");
  response ← session_post crm (mkPosted url headers params data verify);
  if negb (status_code response =? 200) || bool_decide (text response = "")
  then raise ConnectionsFailed
  else mret (text response).

Section locator.

(** [parse_naumen_page(page_text, report_name, page_type)] of the parser
    package, which is not among the sources: the entries of the listing
    page that carry the report name. *)
Variable parse_naumen_page : string -> string -> PageType -> Result (list string).

(** The recursive [_searching], by the number of retries still allowed:
    [num_attems >= 1] holds exactly when [Z.to_nat num_attems] is a
    successor, and the recursive call is on [num_attems - 1].  Its
    [search_request] is the list bound in [_find_report_uuid], at the first
    call and at every recursive one. *)
Fixpoint _searching_from (retries : nat) (crm : ActiveConnect)
    (report_name : string) (delay_attems : Z) (search_request : list NaumenRequest)
    : IO (list string) :=
  _ ← sleep delay_attems;
  page_text ← _get_crm_response crm (PyList search_request);
  parsed_collection ← lift (parse_naumen_page page_text report_name REPORT_LIST_PAGE);
  match parsed_collection with
  | [] =>
      match retries with
      | S retries' =>
          _searching_from retries' crm report_name delay_attems search_request
      | O => raise CantGetData
      end
  | _ :: _ => mret parsed_collection
  end.

Definition _searching (crm : ActiveConnect) (report_name : string)
    (delay_attems : Z) (num_attems : Z) (search_request : list NaumenRequest)
    : IO (list string) :=
  _searching_from (Z.to_nat num_attems) crm report_name delay_attems search_request.

(** [_find_report_uuid(crm, params)] for
    [params: tuple[NaumenRequest, str, int, int]].  In
    [*search_request, report_name, delay_attems, num_attems = params] the
    starred target takes what the three names leave, as a list: here the
    list of the one request. *)
Definition _find_report_uuid (crm : ActiveConnect)
    (params : NaumenRequest * string * Z * Z) : IO string :=
  let '(request, report_name, delay_attems, num_attems) := params in
  let search_request := [request] in
  parsed_collection ←
    _searching crm report_name delay_attems num_attems search_request;
  match parsed_collection with
  | [uuid] => mret uuid
  | _ => raise CantGetData
  end.

End locator.

End client.

(** ** src/naumen_api/naumen_api.py: the [Client] class *)

Module api.
Import Py.

(** The members of [StatusType], [TypeReport] and [SearchType] the class
    names. *)
Inductive StatusType : Type :=
  | _SUCCESS
  | _UNAUTHORIZED
  | _BAD_REQUEST
  | _GATEWAY_TIMEOUT.

Inductive TypeReport : Type :=
  | ISSUES_FIRST_LINE
  | ISSUES_VIP_LINE
  | ISSUE_CARD
  | SERVICE_LEVEL
  | MTTR_LEVEL
  | FLR_LEVEL
  | AHT_LEVEL.

Inductive SearchType : Type :=
  | ISSUES_SEARCH.

(** The values the methods receive and pass on: [None], a bool, an int or a
    str. *)
Inductive value : Type :=
  | VNone
  | VBool (b : bool)
  | VInt (z : Z)
  | VStr (s : string).

(** Keyword arguments and [dict.items()]. *)
Definition Items : Type := list (string * value).

(** What can be raised into the class: an exception of the repository,
    [requests.exceptions.ConnectionError], [TypeError], or another one. *)
Inductive raised : Type :=
  | Repo (e : exn)
  | ConnectionError
  | TypeError
  | OtherError (name : string).

Inductive Outcome (A : Type) : Type :=
  | Done (a : A)
  | Propagated (e : raised).
Arguments Done {A} a.
Arguments Propagated {A} e.

(** [ResponseTemplate(status, content)], with the text assigned to
    [status.description] when there is one. *)
Record ResponseTemplate (Content : Type) : Type := mkTemplate {
  status : StatusType;
  description : option string;
  content : Content;
}.
Arguments mkTemplate {Content}.
Arguments status {Content}.
Arguments description {Content}.
Arguments content {Content}.

(** The collaborators of the transceiver package, which is not among the
    sources: [get_session], [get_report], [search], [make_response], and
    the empty tuple as content. *)
Class Transceiver (Session Content Formatter Formatted : Type) : Type := {
  get_session : string -> string -> string -> Outcome Session;
  get_report : Session -> TypeReport -> Items -> Items -> Items -> Outcome Content;
  search : Session -> SearchType -> Items -> Items -> Items -> Outcome Content;
  make_response : ResponseTemplate Content -> Formatter -> Formatted;
  no_content : Content;
}.

Section client.
Context {float : Type} `{!Builtins float}.
Context {Session Content Formatter Formatted : Type}.
Context `{!Transceiver Session Content Formatter Formatted}.

(** The attributes of a [Client]. *)
Record Client : Type := mkClient {
  username : string;
  password : string;
  domain : string;
  formatter : Formatter;
  _session : option Session;
}.

(** The calls made to the transceiver, with their arguments ([mod_params],
    [mod_data] and the keyword arguments, in this order). *)
Inductive Call : Type :=
  | CallGetSession (username password domain : string)
  | CallGetReport (session : Session) (report : TypeReport)
      (mod_params mod_data kwargs : Items)
  | CallSearch (session : Session) (report : SearchType)
      (mod_params mod_data kwargs : Items).

(** A method call: what it returns or raises, the client after it, and the
    transceiver calls it made. *)
Record Run : Type := mkRun {
  result : Outcome Formatted;
  client : Client;
  calls : list Call;
}.

(** [all(xs)] for a list of str: every one is non-empty. *)
Definition all_ (xs : list string) : bool :=
  forallb (fun x => negb (String.eqb x "")) xs.

(** The three credential attributes of a client. *)
Definition credentials (self : Client) : string * string * string :=
  (username self, password self, domain self).

(** [self.username = ...; self.password = ...; self.domain = ...]. *)
Definition with_credentials (self : Client) (creds : string * string * string)
    : Client :=
  mkClient creds.1.1 creds.1.2 creds.2 (formatter self) (_session self).

(** [self._session = session]. *)
Definition with_session (self : Client) (session : Session) : Client :=
  mkClient (username self) (password self) (domain self) (formatter self)
    (Some session).

(** [connect(username=..., password=..., domain=...)], its three keyword
    arguments taken together as [given]. *)
Definition connect (self : Client) (given : string * string * string) : Run :=
  let local_credentials := all_ [given.1.1; given.1.2; given.2] in
  let self_credentials :=
    all_ [(credentials self).1.1; (credentials self).1.2; (credentials self).2] in
  let error_response := mkTemplate _UNAUTHORIZED None no_content in
  if negb (local_credentials || self_credentials) then
    mkRun (Done (make_response error_response (formatter self))) self []
  else
    let self := if local_credentials then with_credentials self given else self in
    let used := credentials self in
    let call := CallGetSession used.1.1 used.1.2 used.2 in
    match get_session used.1.1 used.1.2 used.2 with
    | Done session =>
        let self := with_session self session in
        let success_response := mkTemplate _SUCCESS None no_content in
        mkRun (Done (make_response success_response (formatter self))) self [call]
    | Propagated (Repo ConnectionsFailed) =>
        mkRun (Done (make_response error_response (formatter self))) self [call]
    | Propagated e => mkRun (Propagated e) self [call]
    end.

(** [_get_response(report, mod_params, mod_data, **kwargs)]; no caller in
    the class passes positional arguments. *)
Definition _get_response (self : Client) (report : TypeReport + SearchType)
    (mod_params mod_data kwargs : Items) : Run :=
  match _session self with
  | None =>
      let error_response :=
        mkTemplate _UNAUTHORIZED (Some "You are not authorized to get report.")
          no_content in
      mkRun (Done (make_response error_response (formatter self))) self []
  | Some session =>
      let called :=
        match report with
        | inl report =>
            (get_report session report mod_params mod_data kwargs,
             CallGetReport session report mod_params mod_data kwargs)
        | inr report =>
            (search session report mod_params mod_data kwargs,
             CallSearch session report mod_params mod_data kwargs)
        end in
      let answer (template : ResponseTemplate Content) :=
        mkRun (Done (make_response template (formatter self))) self [called.2] in
      match called.1 with
      | Done content => answer (mkTemplate _SUCCESS None content)
      | Propagated ConnectionError =>
          answer (mkTemplate _GATEWAY_TIMEOUT None no_content)
      | Propagated (Repo CantGetData) =>
          answer (mkTemplate _BAD_REQUEST None no_content)
      | Propagated (Repo InvalidDate) =>
          answer (mkTemplate _BAD_REQUEST
                    (Some "Invalid date format. Allowed date format: %d.%m.%Y")
                    no_content)
      | Propagated (Repo ConnectionsFailed) =>
          answer (mkTemplate _UNAUTHORIZED None no_content)
      | Propagated e => mkRun (Propagated e) self [called.2]
      end
  end.

Definition search_issue (self : Client) (number : value)
    (name_contragent : string) (number_contragent : value)
    (parse_issue_history parse_issue_card : bool) : Run :=
  let report_kwargs :=
    [("byNumber", number); ("byCntrTitle", VStr name_contragent);
     ("byCntrNumber", number_contragent)] in
  let add_kwarg :=
    [("parse_issue_history", VBool parse_issue_history);
     ("parse_issue_cards", VBool parse_issue_card)] in
  _get_response self (inr ISSUES_SEARCH) [] report_kwargs add_kwarg.

Definition get_issues (self : Client) (is_vip : bool)
    (parse_issue_history parse_issue_card : bool) : Run :=
  let report := if is_vip then ISSUES_VIP_LINE else ISSUES_FIRST_LINE in
  let report_kwargs :=
    [("parse_issue_history", VBool parse_issue_history);
     ("parse_issue_cards", VBool parse_issue_card)] in
  _get_response self (inl report) [] [] report_kwargs.

Definition get_issue_card (self : Client) (naumen_uuid : string) : Run :=
  _get_response self (inl ISSUE_CARD) [] [] [("naumen_uuid", VStr naumen_uuid)].

(** [self._get_response(report, mod_data=..., mod_params=(), **kwargs)] as
    the four report methods call it.  Python binds the arguments before the
    body runs, and a keyword of [kwargs] that names a parameter the call
    already gives ([self], [report], [mod_params], [mod_data]) is a
    [TypeError]; no method catches it. *)
Definition given_twice (kwargs : Items) : bool :=
  existsb
    (fun kv => bool_decide (kv.1 ∈ ["self"; "report"; "mod_params"; "mod_data"]))
    kwargs.

Definition _get_response_with (self : Client) (report : TypeReport + SearchType)
    (mod_params mod_data kwargs : Items) : Run :=
  if given_twice kwargs then mkRun (Propagated TypeError) self []
  else _get_response self report mod_params mod_data kwargs.

(** [int(deadline)] inside [try: ... except (ValueError, TypeError)]:
    [None] stands for either exception. *)
Definition int_of_value (deadline : value) : Outcome (option Z) :=
  match deadline with
  | VNone => Done None
  | VBool b => Done (Some (if b then 1 else 0))
  | VInt z => Done (Some z)
  | VStr s =>
      match py_int s with
      | Ok z => Done (Some z)
      | Raise ValueError => Done None
      | Raise e => Propagated (Repo e)
      end
  end.

(** [f"{deadline}"]. *)
Definition format_value (v : value) : string :=
  match v with
  | VNone => "None"
  | VBool b => if b then "True" else "False"
  | VInt z => str z
  | VStr s => s
  end.

Definition get_sl_report (self : Client) (start_date end_date : string)
    (deadline : value) (kwargs : Items) : Run :=
  match int_of_value deadline with
  | Propagated e => mkRun (Propagated e) self []
  | Done None =>
      let error_response :=
        mkTemplate _BAD_REQUEST
          (Some ("Invalid deadline value: " +:+ format_value deadline))
          no_content in
      mkRun (Done (make_response error_response (formatter self))) self []
  | Done (Some deadline) =>
      let report_kwargs :=
        [("start_date", VStr start_date); ("end_date", VStr end_date);
         ("deadline", VInt deadline)] in
      _get_response_with self (inl SERVICE_LEVEL) [] report_kwargs kwargs
  end.

Definition get_mttr_report (self : Client) (start_date end_date : string)
    (kwargs : Items) : Run :=
  _get_response_with self (inl MTTR_LEVEL) []
    [("start_date", VStr start_date); ("end_date", VStr end_date)] kwargs.

Definition get_flr_report (self : Client) (start_date end_date : string)
    (kwargs : Items) : Run :=
  _get_response_with self (inl FLR_LEVEL) []
    [("start_date", VStr start_date); ("end_date", VStr end_date)] kwargs.

Definition get_aht_report (self : Client) (start_date end_date : string)
    (kwargs : Items) : Run :=
  _get_response_with self (inl AHT_LEVEL) []
    [("start_date", VStr start_date); ("end_date", VStr end_date)] kwargs.

(** The public methods that fetch data, as one type of requests. *)
Inductive Fetch : Type :=
  | SearchIssue (number : value) (name_contragent : string)
      (number_contragent : value) (parse_issue_history parse_issue_card : bool)
  | GetIssues (is_vip parse_issue_history parse_issue_card : bool)
  | GetIssueCard (naumen_uuid : string)
  | GetSlReport (start_date end_date : string) (deadline : value) (kwargs : Items)
  | GetMttrReport (start_date end_date : string) (kwargs : Items)
  | GetFlrReport (start_date end_date : string) (kwargs : Items)
  | GetAhtReport (start_date end_date : string) (kwargs : Items).

Definition fetch (self : Client) (request : Fetch) : Run :=
  match request with
  | SearchIssue n c nc h k => search_issue self n c nc h k
  | GetIssues v h k => get_issues self v h k
  | GetIssueCard u => get_issue_card self u
  | GetSlReport s e d kw => get_sl_report self s e d kw
  | GetMttrReport s e kw => get_mttr_report self s e kw
  | GetFlrReport s e kw => get_flr_report self s e kw
  | GetAhtReport s e kw => get_aht_report self s e kw
  end.

End client.

Arguments Client : clear implicits.
Arguments Call : clear implicits.
Arguments Run : clear implicits.

End api.

Module api_vocabulary.
Import Py api.

Section vocabulary.
Context {float : Type} `{!Builtins float}.
Context {Session Content Formatter Formatted : Type}.
Context `{!Transceiver Session Content Formatter Formatted}.

(** User name, password and domain are all given. *)
Definition complete (creds : string * string * string) : bool :=
  all_ [creds.1.1; creds.1.2; creds.2].

(** The deadline of a Service Level request converts to an int; the other
    requests carry none. *)
Definition deadline_converts (request : Fetch) : Prop :=
  match request with
  | GetSlReport _ _ deadline _ => exists z, int_of_value deadline = Done (Some z)
  | _ => True
  end.

(** The keyword arguments of a report request name a parameter that the
    method gives [_get_response] itself; the other requests pass none on. *)
Definition keywords_given_twice (request : Fetch) : bool :=
  match request with
  | GetSlReport _ _ _ kwargs
  | GetMttrReport _ _ kwargs
  | GetFlrReport _ _ kwargs
  | GetAhtReport _ _ kwargs => given_twice kwargs
  | _ => false
  end.

(** The session a transceiver call was made with. *)
Definition session_of (call : Call Session) : option Session :=
  match call with
  | CallGetSession _ _ _ => None
  | CallGetReport session _ _ _ _ => Some session
  | CallSearch session _ _ _ _ => Some session
  end.

(** The answer to a client that has no session. *)
Definition not_authorized (self : Client Session Formatter) : Formatted :=
  make_response
    (mkTemplate _UNAUTHORIZED (Some "You are not authorized to get report.")
       no_content)
    (formatter self).

End vocabulary.

End api_vocabulary.

(** ** More concrete inputs *)

Module more_examples.
Import Py parser_base service_level client reference examples.

(** A search request as the builders make them. *)
Definition listing_request : request_builders.NaumenRequest :=
  request_builders.mkNaumenRequest "https://crm/reports" ∅ ∅ ∅ false.

(** The same five values on an object that has a [header] attribute. *)
Definition header_request : object :=
  Instance
    (<["url" := AStr "https://crm/reports"]>
       (<["header" := AMapping ∅]>
          (<["params" := AMapping ∅]>
             (<["data" := AMapping ∅]>
                (<["verify" := ABool false]> ∅))))).

(** A remote end whose listing page never shows the report. *)
Definition empty_listing_parser (page_text report_name : string) (page : PageType)
    : Result (list string) := Ok [].
Definition steady_session : ActiveConnect :=
  fun _ _ => mkResponse 200 "<html>listing</html>".
Definition fresh_world : World := mkWorld [] 0.

(** A remote end whose listing page shows two entries under every report
    name. *)
Definition doubling_parser (page_text report_name : string) (page : PageType)
    : Result (list string) := Ok ["uuid-1"; "uuid-2"].

(** A remote end that refuses every request. *)
Definition refusing_session : ActiveConnect :=
  fun _ _ => mkResponse 502 "".

(** A row that has a day cell and nothing else. *)
Definition bare_row : gmap string string := dict_zip ["День"] ["6"].

(** The configuration of the Service Level report, in the shape the
    builders expect. *)
Definition sl_config : request_builders.ReportParams :=
  request_builders.mkReportParams "https://crm/report" "reports-folder"
    ∅ []
    [("title", [("name", "title"); ("value", "")]);
     ("first day", [("name", "first"); ("value", "")]);
     ("last day", [("name", "last"); ("value", "")]);
     ("deadline", [("name", "deadline"); ("value", "15")]);
     ("do", [("name", "do"); ("value", "Create")])]
    false 5 3.

Definition sl_config_pairs : list (string * string) :=
  [("title", ""); ("first", ""); ("last", ""); ("deadline", "15");
   ("do", "Create")].

Definition configured (kind : string) : Result request_builders.ReportParams :=
  Ok sl_config.

(** A transceiver that gives session 1 for the password "secret", refuses
    every other one, and answers every report with the same content; a
    response is its template. *)
#[global] Instance test_transceiver
    : api.Transceiver nat string unit (api.ResponseTemplate string) := {|
  api.get_session u p d :=
    if String.eqb p "secret" then api.Done 1%nat
    else api.Propagated (api.Repo ConnectionsFailed);
  api.get_report session report mod_params mod_data kwargs := api.Done "report";
  api.search session report mod_params mod_data kwargs := api.Done "found";
  api.make_response template formatter := template;
  api.no_content := "";
|}.

Definition new_client : api.Client nat unit := api.mkClient "" "" "" tt None.

Definition sparse_days_report : list (list (ServiceLevel Q)) :=
  Eval vm_compute in
    match _formating_service_level_data sparse_days with
    | Ok out => out
    | Raise _ => []
    end.

Definition sparse_days_completed_report : list (list (ServiceLevel Q)) :=
  Eval vm_compute in
    match _formating_service_level_data sparse_days_completed with
    | Ok out => out
    | Raise _ => []
    end.

End more_examples.

(** * Results *)

Import Py parser_base service_level client.

(** ** The error monad *)

Lemma bind_Ok_inv {A B : Type} (m : Result A) (f : A -> Result B) (b : B) :
  m ≫= f = Ok b -> exists a, m = Ok a /\ f a = Ok b.
Proof. destruct m as [a|e]; simpl; [eauto | discriminate]. Qed.

Lemma traverse_Forall2 {A B : Type} (f : A -> Result B) (xs : list A) (ys : list B) :
  traverse f xs = Ok ys <-> Forall2 (fun x y => f x = Ok y) xs ys.
Proof.
  revert ys. induction xs as [|x xs IH]; intros ys; simpl.
  - split.
    + intros [= <-]. constructor.
    + intros Hall. by inversion Hall.
  - split.
    + intros Hb. apply bind_Ok_inv in Hb as (y & Hy & Hb).
      apply bind_Ok_inv in Hb as (ys' & Hys & [= <-]).
      constructor; [done | by apply IH].
    + intros Hall. inversion Hall as [|? y ? ys' Hy Hrest]; subst.
      rewrite Hy. simpl. apply IH in Hrest. rewrite Hrest. done.
Qed.

Lemma traverse_length {A B : Type} (f : A -> Result B) (xs : list A) (ys : list B) :
  traverse f xs = Ok ys -> length ys = length xs.
Proof.
  intros Ht. apply traverse_Forall2 in Ht. symmetry. by eapply Forall2_length.
Qed.

(** ** The submitter: [_get_crm_response] *)

Section submitter.
Import request_builders.
Implicit Types (crm : ActiveConnect) (w : World) (request : NaumenRequest).

(** A [NaumenRequest] has [headers] and no [header]. *)
Lemma naumen_request_attributes request :
  getattr (Tuple request) "url" = Ok (AStr (url request)) /\
  getattr (Tuple request) "headers" = Ok (AMapping (headers request)) /\
  getattr (Tuple request) "header" = Raise AttributeError.
Proof. done. Qed.

(** C8, on the code.  The submitter reads [request.header], an attribute a
    [NaumenRequest] does not have: whatever the session would answer, the
    call raises [AttributeError] and no request is sent, so neither
    [ConnectionsFailed] nor the body text is ever the result. *)
Theorem naumen_request_is_never_sent crm request w :
  _get_crm_response crm (Tuple request) w = (Raise AttributeError, w).
Proof. reflexivity. Qed.

(** A list has no attribute the submitter reads: its first argument already
    fails. *)
Lemma get_crm_response_list crm items w :
  _get_crm_response crm (PyList items) w = (Raise AttributeError, w).
Proof. reflexivity. Qed.

(** On an object that does have the five attributes read, [header] among
    them, one request is sent with their values, and the status test decides
    the result. *)
Lemma get_crm_response_of_instance crm attrs url headers params data verify w :
  attrs !! "url" = Some url ->
  attrs !! "header" = Some headers ->
  attrs !! "params" = Some params ->
  attrs !! "data" = Some data ->
  attrs !! "verify" = Some verify ->
  let sent := mkPosted url headers params data verify in
  let response := crm (served w) sent in
  _get_crm_response crm (Instance attrs) w =
    (if negb (status_code response =? 200) || bool_decide (text response = "")
     then Raise ConnectionsFailed
     else Ok (text response),
     mkWorld (trace w ++ [Post sent]) (S (served w))).
Proof.
  intros Hu Hh Hp Hd Hv sent response.
  unfold _get_crm_response, mbind, io_bind, lift, getattr.
  rewrite Hu, Hh, Hp, Hd, Hv. unfold session_post. fold sent. fold response.
  destruct (negb _ || _); reflexivity.
Qed.

Lemma get_crm_response_status_test crm attrs url headers params data verify w :
  attrs !! "url" = Some url ->
  attrs !! "header" = Some headers ->
  attrs !! "params" = Some params ->
  attrs !! "data" = Some data ->
  attrs !! "verify" = Some verify ->
  let response := crm (served w) (mkPosted url headers params data verify) in
  ((_get_crm_response crm (Instance attrs) w).1 = Raise ConnectionsFailed
     <-> (status_code response <> 200 \/ text response = "")) /\
  ((_get_crm_response crm (Instance attrs) w).1 = Ok (text response)
     <-> (status_code response = 200 /\ text response <> "")).
Proof.
  intros Hu Hh Hp Hd Hv response.
  rewrite (get_crm_response_of_instance crm attrs url headers params data verify w)
    by done.
  fold response. cbn [fst].
  destruct (Z.eqb_spec (status_code response) 200) as [Hs|Hs];
    destruct (decide (text response = "")) as [Ht|Ht]; simpl;
    rewrite ?(bool_decide_eq_true_2 _ Ht), ?(bool_decide_eq_false_2 _ Ht);
    repeat split; intros; intuition (try discriminate; try congruence).
Qed.

End submitter.

(** ** The locator: [_find_report_uuid] *)

Section locator.
Import request_builders.
Variable parse_naumen_page : string -> string -> PageType -> Result (list string).
Implicit Types (crm : ActiveConnect) (w : World) (request : NaumenRequest).

(** [_searching]: the delay, then the failing attribute lookup on the
    list.  Neither the session nor the listing parser nor the retries left
    come into it, and the recursive call is never reached. *)
Lemma searching_from_list retries crm name delay items w :
  _searching_from parse_naumen_page retries crm name delay items w =
    if delay <? 0 then (Raise ValueError, w)
    else (Raise AttributeError, mkWorld (trace w ++ [Sleep delay]) (served w)).
Proof.
  destruct retries; cbn [_searching_from];
    unfold mbind at 1, io_bind at 1, sleep;
    destruct (delay <? 0); reflexivity.
Qed.

Lemma find_report_uuid_run crm request name delay n w :
  _find_report_uuid parse_naumen_page crm (request, name, delay, n) w =
    if delay <? 0 then (Raise ValueError, w)
    else (Raise AttributeError, mkWorld (trace w ++ [Sleep delay]) (served w)).
Proof.
  unfold _find_report_uuid, _searching, mbind at 1, io_bind at 1.
  rewrite searching_from_list. by destruct (delay <? 0).
Qed.

(** C5, on the code.  With an attempt budget of 2 the locator waits the
    configured delay once and then fails with [AttributeError] on the list
    its starred assignment made of the search request: no listing page is
    requested, whatever the session would serve, and the error is not
    [CantGetData]. *)
Theorem budget_two_never_polls crm request name delay w :
  0 <= delay ->
  _find_report_uuid parse_naumen_page crm (request, name, delay, 2) w =
    (Raise AttributeError, mkWorld (trace w ++ [Sleep delay]) (served w)).
Proof.
  intros Hdelay. rewrite find_report_uuid_run.
  destruct (Z.ltb_spec delay 0); [lia | done].
Qed.

End locator.

(** C7, on the code.  The locator never reads a listing page: its run is the
    same for every session and every listing parser, one that finds several
    entries included; it serves no request and never ends with
    [CantGetData]. *)
Theorem ambiguous_listing_is_never_read
    (parse_naumen_page parse_naumen_page' : string -> string -> PageType -> Result (list string))
    (crm crm' : ActiveConnect) (params : request_builders.NaumenRequest * string * Z * Z)
    (w : World) :
  let run := _find_report_uuid parse_naumen_page crm params w in
  run = _find_report_uuid parse_naumen_page' crm' params w /\
  run.1 <> Raise CantGetData /\
  (forall uuid, run.1 <> Ok uuid) /\
  served run.2 = served w.
Proof.
  destruct params as [[[request name] delay] n]. cbv zeta.
  rewrite !find_report_uuid_run.
  destruct (delay <? 0); repeat split; done.
Qed.

(** ** The formatter: [_formating_service_level_data] *)

Import properties.

Section formatter.
Context {float : Type} `{!Builtins float}.
Implicit Types (st : day_state (float := float)) (rows : list (gmap string string)).

(** What the inner loop leaves in its variables. *)
Lemma format_rows_inv rows st st' :
  format_rows rows st = Ok st' ->
  exists recs,
    Forall2 (fun row r => format_row row = Ok r) rows recs /\
    day_collection st' = day_collection st ++ recs /\
    gen_total_issues st' = gen_total_issues st + sum_of total_issues recs /\
    gen_total_primary_issues st' =
      gen_total_primary_issues st + sum_of total_primary_issues recs /\
    gen_num_issues_before_deadline st' =
      gen_num_issues_before_deadline st + sum_of num_issues_before_deadline recs /\
    gen_num_issues_after_deadline st' =
      gen_num_issues_after_deadline st + sum_of num_issues_after_deadline recs.
Proof.
  revert st. induction rows as [|data rest IH]; intros st Hrun; simpl in Hrun.
  - injection Hrun as <-. exists []. rewrite app_nil_r. simpl.
    repeat split; (constructor || lia).
  - apply bind_Ok_inv in Hrun as (sl & Hsl & Hrun).
    destruct (IH _ Hrun) as (recs & Hall & Hcoll & H1 & H2 & H3 & H4).
    exists (sl :: recs). simpl in *.
    repeat split; try lia.
    + by constructor.
    + by rewrite Hcoll, <- app_assoc.
Qed.

Lemma format_day_inv entry recs :
  format_day entry = Ok recs ->
  exists st groups,
    recs = groups ++ [total_record st] /\
    Forall2 (fun row r => format_row row = Ok r) entry.2 groups /\
    gen_total_issues st = sum_of total_issues groups /\
    gen_total_primary_issues st = sum_of total_primary_issues groups /\
    gen_num_issues_before_deadline st = sum_of num_issues_before_deadline groups /\
    gen_num_issues_after_deadline st = sum_of num_issues_after_deadline groups.
Proof.
  unfold format_day. intros Hrun.
  apply bind_Ok_inv in Hrun as (st & Hst & [= <-]).
  destruct (format_rows_inv _ _ _ Hst) as (groups & Hall & Hcoll & H1 & H2 & H3 & H4).
  simpl in *. exists st, groups. by rewrite Hcoll.
Qed.

(** C3.  In every per-day list the formatter returns, the record named
    "Итог" carries, for each of the four counts, the sum of that count over
    the day's group records. *)
Theorem total_counts_are_sums days out :
  _formating_service_level_data days = Ok out ->
  Forall2 (fun entry recs => counts_summed entry.2 recs) days out.
Proof.
  intros Hrun. apply traverse_Forall2 in Hrun.
  eapply Forall2_impl; [exact Hrun|].
  intros entry recs Hday.
  destruct (format_day_inv _ _ Hday) as (st & groups & -> & Hall & H1 & H2 & H3 & H4).
  exists groups, (total_record st). by repeat split.
Qed.


End formatter.

(** ** The completion step: [_service_lavel_data_completion] *)

Section completion.
Implicit Types (content : list (gmap string string)) (groups lable : list string).

(** The inner loop appends, after the rows already there, one row for each
    group that [day_groups] does not name. *)
Lemma append_missing_app lable day sl day_groups groups content :
  append_missing lable day sl day_groups groups content =
    content ++
    map (fun group => zero_row lable day group sl)
      (filter (fun group => group ∉ day_groups) groups).
Proof.
  unfold append_missing. revert content.
  induction groups as [|g groups IH]; intros content; simpl.
  - by rewrite app_nil_r.
  - rewrite IH. destruct (decide (g ∈ day_groups)) as [Hin|Hout].
    + rewrite bool_decide_eq_true_2 by done.
      rewrite filter_cons_False by (intros Hn; by apply Hn). done.
    + rewrite bool_decide_eq_false_2 by done.
      rewrite filter_cons_True by done. simpl. by rewrite <- app_assoc.
Qed.

Lemma filter_none {A : Type} (P : A -> Prop) `{!forall x, Decision (P x)} (l : list A) :
  Forall (fun x => ~ P x) l -> filter P l = [].
Proof.
  induction 1 as [|x l Hx _ IH]; [done|].
  by rewrite filter_cons_False.
Qed.

Lemma complete_day_complete today groups lable day content :
  complete_bucket groups content ->
  complete_day today groups lable day content = Ok content.
Proof.
  intros (names & Hnames & Hperm). unfold complete_day.
  assert (Hlen : length content = length groups).
  { rewrite <- (traverse_length _ _ _ Hnames). by apply Permutation_length. }
  destruct (Nat.eqb_spec (length content) 0) as [H0|H0].
  - destruct content; [|discriminate]. destruct groups; [done|discriminate].
  - destruct (Nat.eqb_spec (length content) 2) as [H2|H2]; simpl; [done|].
    rewrite Hnames. simpl. rewrite append_missing_app.
    rewrite filter_none.
    + by rewrite app_nil_r.
    + apply Forall_forall. intros g Hg Hout. apply Hout.
      rewrite Hperm. done.
Qed.

Lemma completion_complete now days groups lable :
  Forall (fun entry => complete_bucket groups entry.2) days ->
  _service_lavel_data_completion now days groups lable = Ok days.
Proof.
  intros Hall. unfold _service_lavel_data_completion.
  apply traverse_Forall2.
  induction Hall as [|[day content] days Hc _ IH]; constructor; [|exact IH].
  simpl in *. by rewrite complete_day_complete.
Qed.

(** C9.  On a bucket set in which every day already holds exactly one row
    per known group, the completion step returns the buckets as they are,
    so applying it again (at whatever time) gives what the first
    application gave. *)
Theorem completion_idempotent_when_complete now now' days groups lable :
  Forall (fun entry => complete_bucket groups entry.2) days ->
  _service_lavel_data_completion now days groups lable = Ok days /\
  (_service_lavel_data_completion now days groups lable ≫=
     fun days' => _service_lavel_data_completion now' days' groups lable)
    = _service_lavel_data_completion now days groups lable.
Proof.
  intros Hall. rewrite !completion_complete by done.
  split; [done|]. simpl. by apply completion_complete.
Qed.

(** The cells of a row the step writes, for a table whose first seven
    column labels are the Service Level ones. *)
Lemma zero_row_cells lable day g sl :
  take 7 lable = reference.sl_columns ->
  is_zero_row (zero_row lable day g sl) day g sl.
Proof.
  intros Hlable. unfold zero_row, dict_zip.
  rewrite <- (zip_with_take_l _ lable). simpl length. rewrite Hlable.
  unfold is_zero_row. generalize (str day) as cell. intros cell.
  repeat split; vm_compute; reflexivity.
Qed.

(** Within the current month, comparing day numbers is comparing dates. *)
Lemma sl_of_day_by_date now d :
  same_month d now ->
  sl_of_day (datetime.day now) (datetime.day d) = sl_by_date now d.
Proof.
  intros [Hy Hm]. unfold sl_of_day, sl_by_date, datetime.leb, datetime.toordinal.
  rewrite Hy, Hm.
  destruct (Z.geb_spec (datetime.day now) (datetime.day d));
    destruct (Z.leb_spec
      (datetime._days_before_year (datetime.year now)
       + datetime._days_before_month (datetime.year now) (datetime.month now)
       + datetime.day d)
      (datetime._days_before_year (datetime.year now)
       + datetime._days_before_month (datetime.year now) (datetime.month now)
       + datetime.day now)); (done || lia).
Qed.

Lemma zero_rows_Forall2 lable day sl (added : list string) :
  take 7 lable = reference.sl_columns ->
  Forall2 (fun g row => is_zero_row row day g sl) added
    (map (fun group => zero_row lable day group sl) added).
Proof.
  intros Hlable. induction added as [|g added IH]; constructor; [|exact IH].
  by apply zero_row_cells.
Qed.

Lemma complete_day_filled now groups lable day content content' :
  take 7 lable = reference.sl_columns ->
  complete_day (datetime.day now) groups lable day content = Ok content' ->
  filled_by_design now groups (day, content) (day, content').
Proof.
  intros Hlable Hrun. split; [done|]. cbn [fst snd].
  set (sl := sl_of_day (datetime.day now) day).
  assert (Hsl : forall d, same_month d now -> datetime.day d = day ->
                          sl = sl_by_date now d).
  { intros d Hd <-. by apply sl_of_day_by_date. }
  unfold complete_day in Hrun. fold sl in Hrun.
  destruct (Nat.eqb_spec (length content) 0) as [H0|H0].
  - injection Hrun as <-. destruct content; [|discriminate].
    exists groups, (map (fun group => zero_row lable day group sl) groups), sl.
    repeat split; try done. by apply zero_rows_Forall2.
  - destruct (Nat.eqb_spec (length content) 2) as [H2|H2]; simpl in Hrun.
    + injection Hrun as <-. exists [], [], sl.
      rewrite app_nil_r. repeat split; try done.
      intros ->. done.
    + apply bind_Ok_inv in Hrun as (names & Hnames & [= <-]).
      rewrite append_missing_app.
      exists (missing_groups names groups),
        (map (fun group => zero_row lable day group sl) (missing_groups names groups)),
        sl.
      repeat split; try done.
      * by apply zero_rows_Forall2.
      * intros ->. done.
      * intros _ _. by exists names.
Qed.

(** What the step adds to one bucket, with the service level text as the
    code chooses it. *)
Lemma complete_day_added today groups lable day content content' :
  complete_day today groups lable day content = Ok content' ->
  exists added,
    content' =
      content ++ map (fun group => zero_row lable day group (sl_of_day today day)) added /\
    (content = [] -> added = groups) /\
    (length content = 2%nat -> added = []) /\
    (content <> [] -> length content <> 2%nat ->
       exists names,
         traverse (fun row => getitem row "Группа") content = Ok names /\
         added = missing_groups names groups).
Proof.
  intros Hrun. unfold complete_day in Hrun.
  destruct (Nat.eqb_spec (length content) 0) as [H0|H0].
  - injection Hrun as <-. destruct content; [|discriminate].
    exists groups. repeat split; done.
  - destruct (Nat.eqb_spec (length content) 2) as [H2|H2]; simpl in Hrun.
    + injection Hrun as <-. exists []. rewrite app_nil_r.
      repeat split; try done. intros ->. done.
    + apply bind_Ok_inv in Hrun as (names & Hnames & [= <-]).
      rewrite append_missing_app.
      exists (missing_groups names groups). repeat split; try done.
      * intros ->. done.
      * intros _ _. by exists names.
Qed.

(** A day that has passed is on or before today by the calendar, and a
    larger day number than today's makes the step choose 0.0. *)
Lemma elapsed_day_levels now d :
  datetime.lt d now ->
  datetime.day now < datetime.day d ->
  sl_by_date now d = "100.0" /\
  sl_of_day (datetime.day now) (datetime.day d) = "0.0".
Proof.
  unfold datetime.lt, sl_by_date, sl_of_day, datetime.leb. intros Hlt Hday.
  split.
  - destruct (Z.leb_spec (datetime.toordinal d) (datetime.toordinal now)); [done|lia].
  - destruct (Z.geb_spec (datetime.day now) (datetime.day d)); [lia|done].
Qed.

(** C2, on the code.  The step rates a day by its number alone
    ([today >= int(day)] with [today = datetime.now().day]).  For a day that
    has passed but whose number is larger than today's, a day of last month,
    every row it synthesizes carries the service level 0.0, where the claim
    and the function's docstring ask for 100.0; the counts are zero and the
    rows already present stay, as the claim says. *)
Theorem elapsed_day_with_later_number_gets_zero now d groups lable content days' :
  take 7 lable = reference.sl_columns ->
  datetime.lt d now ->
  datetime.day now < datetime.day d ->
  _service_lavel_data_completion now [(datetime.day d, content)] groups lable
    = Ok days' ->
  sl_by_date now d = "100.0" /\
  exists added rows,
    days' = [(datetime.day d, content ++ rows)] /\
    Forall2 (fun g row => is_zero_row row (datetime.day d) g "0.0") added rows /\
    (content = [] -> added = groups) /\
    (length content = 2%nat -> added = []) /\
    (content <> [] -> length content <> 2%nat ->
       exists names,
         traverse (fun row => getitem row "Группа") content = Ok names /\
         added = missing_groups names groups).
Proof.
  intros Hlable Hlt Hday Hrun.
  destruct (elapsed_day_levels now d Hlt Hday) as [Hclaim Hcode].
  split; [exact Hclaim|].
  unfold _service_lavel_data_completion in Hrun. cbn [traverse fst snd] in Hrun.
  apply bind_Ok_inv in Hrun as (entry & Hentry & [= <-]).
  apply bind_Ok_inv in Hentry as (content' & Hc & [= <-]).
  apply complete_day_added in Hc as (added & -> & Hempty & Htwo & Hother).
  rewrite Hcode.
  exists added, (map (fun group => zero_row lable (datetime.day d) group "0.0") added).
  repeat split; try done. by apply zero_rows_Forall2.
Qed.

(** Two names without repetition among two known groups are both groups. *)
Lemma two_names_cover (g1 g2 : string) (names : list string) :
  length names = 2%nat -> NoDup names -> names ⊆ [g1; g2] ->
  missing_groups names [g1; g2] = [].
Proof.
  intros Hlen Hnodup Hsub.
  destruct names as [|a [|b [|c names]]]; try discriminate.
  apply NoDup_cons in Hnodup as [Hab _].
  assert (Ha : a = g1 \/ a = g2).
  { assert (a ∈ [g1; g2]) as Hin by (apply Hsub; left).
    apply elem_of_cons in Hin as [->| Hin]; [by left|].
    apply list_elem_of_singleton in Hin. by right. }
  assert (Hb : b = g1 \/ b = g2).
  { assert (b ∈ [g1; g2]) as Hin by (apply Hsub; right; left).
    apply elem_of_cons in Hin as [->| Hin]; [by left|].
    apply list_elem_of_singleton in Hin. by right. }
  assert (Hne : a <> b).
  { intros ->. apply Hab. left. }
  unfold missing_groups. apply filter_none.
  repeat constructor; intros Hout; apply Hout;
    destruct Ha as [-> | ->], Hb as [-> | ->];
    (done || (left; done) || (right; left; done) || idtac).
  all: try (left; reflexivity); try (right; left; reflexivity).
Qed.

(** Inside the current month, with two known groups and at most one row per
    group in a bucket, the rows present stay and each missing group gets a
    zero row whose service level follows the calendar. *)
Lemma synthesis_in_current_month now d g1 g2 lable content names days' :
  take 7 lable = reference.sl_columns ->
  same_month d now ->
  traverse (fun row => getitem row "Группа") content = Ok names ->
  NoDup names ->
  names ⊆ [g1; g2] ->
  _service_lavel_data_completion now [(datetime.day d, content)] [g1; g2] lable
    = Ok days' ->
  exists rows,
    days' = [(datetime.day d, content ++ rows)] /\
    Forall2 (fun g row => is_zero_row row (datetime.day d) g (sl_by_date now d))
      (missing_groups names [g1; g2]) rows.
Proof.
  intros Hlable Hmonth Hnames Hnodup Hsub Hrun.
  unfold _service_lavel_data_completion in Hrun. cbn [traverse fst snd] in Hrun.
  apply bind_Ok_inv in Hrun as (entry & Hentry & [= <-]).
  apply bind_Ok_inv in Hentry as (content' & Hc & [= <-]).
  apply complete_day_added in Hc as (added & -> & Hempty & Htwo & Hother).
  rewrite (sl_of_day_by_date now d Hmonth).
  exists (map (fun group => zero_row lable (datetime.day d) group (sl_by_date now d)) added).
  split; [done|].
  assert (Hadded : added = missing_groups names [g1; g2]).
  { destruct (decide (content = [])) as [->|Hne].
    - rewrite Hempty by done. simpl in Hnames. injection Hnames as <-.
      unfold missing_groups. rewrite !filter_cons_True; [done| |];
        by apply not_elem_of_nil.
    - destruct (decide (length content = 2%nat)) as [H2|H2].
      + rewrite Htwo by done. symmetry. apply two_names_cover; try done.
        by rewrite (traverse_length _ _ _ Hnames).
      + destruct (Hother Hne H2) as (names' & Hnames' & ->). congruence. }
  rewrite Hadded. by apply zero_rows_Forall2.
Qed.

End completion.

(** ** [parse] *)

Section parse.
Context {float : Type} `{!Builtins float}.
Context {Soup Tr : Type} `{!HtmlHelpers Soup Tr}.

Lemma eqb_eq (a b : datetime.date) : datetime.eqb a b = true <-> a = b.
Proof.
  unfold datetime.eqb. destruct a as [y m d], b as [y' m' d']. simpl.
  rewrite !andb_true_iff, !Z.eqb_eq. split.
  - intros [[-> ->] ->]. done.
  - intros [= -> -> ->]. done.
Qed.

(** C10.  A page whose two report dates are equal parses to the empty
    sequence: no exception, no per-day records. *)
Theorem parse_equal_dates_empty now cfg text (d : datetime.date) :
  page_dates text d d ->
  parse now cfg text = Ok [] :> Result (list (list (ServiceLevel float))).
Proof.
  intros [Hvalid Hdates]. unfold parse.
  rewrite Hvalid. simpl. rewrite Hdates. simpl.
  by rewrite (proj2 (eqb_eq d d)).
Qed.

(** [parse] on a page with two different dates, up to the group names. *)
Lemma parse_run now cfg text start_date end_date label rows :
  page_dates text start_date end_date ->
  datetime.eqb start_date end_date = false ->
  page_table text label rows ->
  parse now cfg text =
    (names ← traverse (fun row => getitem row "Группа") rows;
     group ← resolve_groups cfg (set_of names);
     complete_and_format now
       (_forming_days_dict (_get_date_range start_date end_date) rows
          SERVICE_LEVEL_REPORT_PAGE)
       label group).
Proof.
  intros [Hvalid Hdates] Hne (Hlabel & trs & Htrs & Hrows). unfold parse.
  rewrite Hvalid. simpl. rewrite Hdates. simpl. rewrite Hne.
  rewrite Hlabel. simpl. rewrite Htrs. simpl. rewrite Hrows. simpl.
  reflexivity.
Qed.

(** C6.  With the group names found in the rows: none at all makes [parse]
    raise [CantGetData]; exactly one (half of the expected two) is merged
    with the configured default names, and [parse] raises [CantGetData]
    unless the merged set has two names; in every other case [parse] goes
    on with the names found. *)
Theorem parse_group_policy now cfg text start_date end_date label rows names :
  page_dates text start_date end_date ->
  datetime.eqb start_date end_date = false ->
  page_table text label rows ->
  traverse (fun row => getitem row "Группа") rows = Ok names ->
  let found := set_of names in
  let merged := set_of (defaul_group_name cfg ++ elements found) in
  let days :=
    _forming_days_dict (_get_date_range start_date end_date) rows
      SERVICE_LEVEL_REPORT_PAGE in
  (size found = 0%nat -> parse now cfg text = Raise CantGetData) /\
  (size found = 1%nat -> size merged <> 2%nat ->
     parse now cfg text = Raise CantGetData) /\
  (size found = 1%nat -> size merged = 2%nat ->
     parse now cfg text = complete_and_format now days label merged) /\
  (size found <> 0%nat -> size found <> 1%nat ->
     parse now cfg text = complete_and_format now days label found).
Proof.
  intros Hdates Hne Htable Hnames found merged days.
  rewrite (parse_run _ _ _ _ _ _ _ Hdates Hne Htable), Hnames. simpl.
  fold found. unfold resolve_groups, support_group_count. fold merged.
  repeat split.
  - intros ->. done.
  - intros -> Hm. simpl.
    destruct (Z.eqb_spec (Z.of_nat (size merged)) 2); [lia|done].
  - intros -> ->. done.
  - intros H0 H1.
    destruct (Nat.eqb_spec (size found) 0); [done|].
    destruct (Z.eqb_spec (Z.of_nat (size found) * 2) 2); [lia|done].
Qed.

End parse.

(** ** The day buckets and the shape of [parse]'s result *)

Section day_lists.
Context {float : Type} `{!Builtins float}.
Context {Soup Tr : Type} `{!HtmlHelpers Soup Tr}.
Implicit Types (rows content : list (gmap string string)) (d : datetime.date).

Lemma date_steps_length n d : length (date_steps n d) = n.
Proof. revert d. induction n as [|n IH]; intros d; simpl; [done|]. by rewrite IH. Qed.

Lemma get_date_range_length start_date end_date :
  length (_get_date_range start_date end_date) =
    Z.to_nat (datetime.days_between end_date start_date + 1).
Proof. apply date_steps_length. Qed.

(** Inside one month the range walks through consecutive day numbers. *)
Lemma date_steps_within_month n y m k0 :
  (n <> 0%nat -> k0 + Z.of_nat n - 1 <= datetime._days_in_month y m) ->
  map datetime.day (date_steps n (datetime.mkdate y m k0)) = seqZ k0 (Z.of_nat n).
Proof.
  revert k0. induction n as [|n IH]; intros k0 Hfit; [done|].
  rewrite Nat2Z.inj_succ, seqZ_cons by lia.
  cbn [date_steps map datetime.day]. f_equal.
  destruct n as [|n]; [done|].
  replace (datetime.tomorrow (datetime.mkdate y m k0))
    with (datetime.mkdate y m (k0 + 1)).
  - rewrite IH by lia. f_equal; lia.
  - unfold datetime.tomorrow. cbn [datetime.year datetime.month datetime.day].
    destruct (Z.ltb_spec k0 (datetime._days_in_month y m)); [done|lia].
Qed.

Lemma range_within_month_distinct_days start_date end_date :
  same_month start_date end_date ->
  datetime.valid end_date = true ->
  NoDup (map datetime.day (_get_date_range start_date end_date)).
Proof.
  intros [Hy Hm] Hvalid. unfold _get_date_range, datetime.days_between,
    datetime.toordinal. rewrite Hy, Hm.
  destruct start_date as [y m k0], end_date as [y' m' k1]. simpl in *. subst.
  unfold datetime.valid in Hvalid. simpl in Hvalid.
  rewrite !andb_true_iff, !Z.leb_le in Hvalid.
  rewrite date_steps_within_month by lia. apply NoDup_seqZ.
Qed.

(** Assigning to a key the dictionary does not have appends the entry. *)
Lemma setitem_fresh {V : Type} (k : Z) (v : V) (dict : list (Z * V)) :
  k ∉ dict.*1 -> setitem k v dict = dict ++ [(k, v)].
Proof.
  induction dict as [|[k' v'] dict IH]; intros Hk; simpl; [done|].
  rewrite fmap_cons, not_elem_of_cons in Hk. destruct Hk as [Hne Hk].
  destruct (Z.eqb_spec k' k); [done|]. by rewrite IH.
Qed.

Lemma forming_days_dict_fold rows (range : list datetime.date)
    (acc : list (Z * list (gmap string string))) :
  NoDup (map datetime.day range) ->
  (forall d, d ∈ range -> datetime.day d ∉ acc.*1) ->
  fold_left
    (fun days d =>
       setitem (datetime.day d)
         (filter (fun row => row !! "День" = Some (str (datetime.day d))) rows)
         days)
    range acc
  = acc ++ map (fun d => (datetime.day d, bucket_of rows d)) range.
Proof.
  revert acc. induction range as [|d range IH]; intros acc Hnd Hacc; simpl.
  - by rewrite app_nil_r.
  - apply NoDup_cons in Hnd as [Hd Hnd].
    rewrite setitem_fresh by (apply Hacc; left).
    rewrite IH; [by rewrite <- app_assoc | done |].
    intros d' Hd'. rewrite fmap_app, not_elem_of_app. split.
    + apply Hacc. by right.
    + simpl. intros Hin. apply list_elem_of_singleton in Hin.
      apply Hd. rewrite <- Hin. apply list_elem_of_fmap. by exists d'.
Qed.

(** With pairwise different day numbers the dictionary has one bucket per
    date of the range, in range order. *)
Lemma forming_days_dict_distinct rows (range : list datetime.date) report :
  NoDup (map datetime.day range) ->
  _forming_days_dict range rows report =
    map (fun d => (datetime.day d, bucket_of rows d)) range.
Proof.
  intros Hnd. unfold _forming_days_dict.
  rewrite forming_days_dict_fold; [done | done |].
  intros d _. apply not_elem_of_nil.
Qed.

(** The names [parse] continues with include every name found. *)
Lemma resolve_groups_includes cfg (found group : gset string) :
  resolve_groups cfg found = Ok group -> found ⊆ group.
Proof.
  unfold resolve_groups, set_of.
  destruct (size found =? 0)%nat; [discriminate|].
  destruct (Z.of_nat (size found) * 2 =? support_group_count); [|by intros [= <-]].
  destruct (negb _); [discriminate|]. intros [= <-].
  intros g Hg. apply elem_of_list_to_set, elem_of_app. right.
  by apply elem_of_elements.
Qed.

Lemma traverse_getitem_lookup (key : string) rows names :
  traverse (fun row => getitem row key) rows = Ok names ->
  map (fun row => row !! key) rows = map Some names.
Proof.
  intros Hrun. apply traverse_Forall2 in Hrun.
  induction Hrun as [|row name rows names Hrow _ IH]; [done|].
  simpl. rewrite IH. f_equal. unfold getitem in Hrow.
  destruct (row !! key); [by injection Hrow as -> | discriminate].
Qed.

(** A bucket is completed to exactly two rows when two groups are known,
    its rows are of known groups and no two of them are of the same group. *)
Lemma complete_day_two_groups today groups lable day content content' :
  NoDup groups -> length groups = 2%nat ->
  NoDup (map (fun row => row !! "Группа") content) ->
  (forall row g, row ∈ content -> row !! "Группа" = Some g -> g ∈ groups) ->
  complete_day today groups lable day content = Ok content' ->
  length content' = 2%nat.
Proof.
  intros Hnd Hlen Hrows Hknown. unfold complete_day.
  destruct (Nat.eqb_spec (length content) 0) as [H0|H0].
  { intros [= <-]. by rewrite length_map. }
  destruct (Nat.eqb_spec (length content) 2) as [H2|H2]; simpl.
  { by intros [= <-]. }
  intros Hrun. apply bind_Ok_inv in Hrun as (names & Hnames & [= <-]).
  pose proof (traverse_length _ _ _ Hnames) as Hlen'.
  pose proof (traverse_getitem_lookup _ _ _ Hnames) as Hcells.
  assert (Hnd' : NoDup names).
  { rewrite Hcells in Hrows. by apply (NoDup_fmap_1 Some). }
  assert (Hsub : forall g, g ∈ names -> g ∈ groups).
  { intros g Hg. apply list_elem_of_lookup in Hg as [i Hi].
    assert (Hrow : (map (fun row => row !! "Группа") content) !! i = Some (Some g)).
    { rewrite Hcells, list_lookup_fmap, Hi. done. }
    rewrite list_lookup_fmap in Hrow.
    destruct (content !! i) as [row|] eqn:Hci; [|discriminate].
    injection Hrow as Hrow. apply (Hknown row g); [|done].
    by eapply list_elem_of_lookup_2. }
  pose proof (submseteq_length _ _ (NoDup_submseteq _ _ Hnd' Hsub)) as Hle.
  destruct names as [|g [|g' names]]; simpl in *; try lia.
  rewrite append_missing_app, length_app, length_map.
  destruct groups as [|a [|b [|c groups]]]; try discriminate.
  apply NoDup_cons in Hnd as [Hab _]. rewrite list_elem_of_singleton in Hab.
  assert (Hg : g = a \/ g = b).
  { specialize (Hsub g ltac:(left)).
    rewrite !elem_of_cons in Hsub. destruct Hsub as [?|[?|Hnil]]; auto.
    by apply not_elem_of_nil in Hnil. }
  assert (Hone : length content = 1%nat) by lia. rewrite Hone.
  destruct Hg as [-> | ->].
  - rewrite filter_cons_False by (intros Hn; apply Hn; left).
    rewrite filter_cons_True; [done|].
    rewrite list_elem_of_singleton. congruence.
  - rewrite filter_cons_True by (rewrite list_elem_of_singleton; congruence).
    rewrite filter_cons_False by (intros Hn; apply Hn; left). done.
Qed.

Lemma format_day_length entry recs :
  format_day entry = Ok recs -> length recs = S (length entry.2).
Proof.
  intros Hrun.
  destruct (format_day_inv _ _ Hrun) as (st & groups & -> & Hall & _).
  rewrite length_app, (Forall2_length _ _ _ Hall). simpl. lia.
Qed.

Lemma bucket_of_group_cells rows d :
  one_row_per_day_and_group rows ->
  NoDup (map (fun row => row !! "Группа") (bucket_of rows d)).
Proof.
  unfold one_row_per_day_and_group, bucket_of.
  induction rows as [|row rows IH]; intros Hnd; [constructor|].
  rewrite fmap_cons in Hnd. apply NoDup_cons in Hnd as [Hrow Hnd].
  rewrite filter_cons. case_decide as Hday; [|by apply IH].
  rewrite fmap_cons. apply NoDup_cons. split; [|by apply IH].
  intros Hin. apply Hrow.
  apply list_elem_of_fmap in Hin as (row' & Hcell & Hin).
  apply list_elem_of_filter in Hin as [Hday' Hin].
  apply list_elem_of_fmap. exists row'. split; [|done].
  by rewrite Hday, Hday', Hcell.
Qed.

(** [parse] on a page with two different dates whose result is a value:
    the steps that produced it. *)
Lemma parse_Ok_inv now cfg text start_date end_date label rows out :
  page_dates text start_date end_date ->
  datetime.eqb start_date end_date = false ->
  page_table text label rows ->
  parse now cfg text = Ok out ->
  exists names group days',
    traverse (fun row => getitem row "Группа") rows = Ok names /\
    resolve_groups cfg (set_of names) = Ok group /\
    _service_lavel_data_completion now
      (_forming_days_dict (_get_date_range start_date end_date) rows
         SERVICE_LEVEL_REPORT_PAGE)
      (tuple_of_set group) label = Ok days' /\
    _formating_service_level_data days' = Ok out.
Proof.
  intros Hdates Hne Htable Hrun.
  rewrite (parse_run _ _ _ _ _ _ _ Hdates Hne Htable) in Hrun.
  apply bind_Ok_inv in Hrun as (names & Hnames & Hrun).
  apply bind_Ok_inv in Hrun as (group & Hgroup & Hrun).
  apply bind_Ok_inv in Hrun as (days' & Hdays & Hrun).
  by exists names, group, days'.
Qed.

Lemma lt_not_eqb start_date end_date :
  datetime.lt start_date end_date -> datetime.eqb start_date end_date = false.
Proof.
  intros Hlt. destruct (datetime.eqb start_date end_date) eqn:Heq; [|done].
  apply eqb_eq in Heq as ->. unfold datetime.lt in Hlt. lia.
Qed.

(** C1, as the code has it.  For a report whose start date is before its
    end date, whose days all carry different day-of-month numbers (any
    range inside one calendar month), and whose table has at most one row
    per day and group: when [parse] returns, its result has exactly
    [(end_date - start_date).days + 1] per-day lists, the list of each date
    of the range at that date's position, and each list has one record per
    known group plus the "Итог" record when two groups are known. *)
Theorem parse_day_lists now cfg text start_date end_date label rows out :
  page_dates text start_date end_date ->
  datetime.lt start_date end_date ->
  NoDup (map datetime.day (_get_date_range start_date end_date)) ->
  page_table text label rows ->
  one_row_per_day_and_group rows ->
  parse now cfg text = Ok out ->
  length out = Z.to_nat (datetime.days_between end_date start_date + 1) /\
  exists names group,
    traverse (fun row => getitem row "Группа") rows = Ok names /\
    resolve_groups cfg (set_of names) = Ok group /\
    Forall2 (bucket_records now label group rows)
      (_get_date_range start_date end_date) out /\
    (size group = 2%nat -> Forall (fun recs => length recs = S (size group)) out).
Proof.
  intros Hdates Hlt Hdistinct Htable Hunique Hrun.
  destruct (parse_Ok_inv _ _ _ _ _ _ _ _ Hdates (lt_not_eqb _ _ Hlt) Htable Hrun)
    as (names & group & days' & Hnames & Hgroup & Hdays & Hout).
  rewrite forming_days_dict_distinct in Hdays by done.
  apply traverse_Forall2 in Hdays. apply traverse_Forall2 in Hout.
  assert (Hrecs : Forall2 (bucket_records now label group rows)
                    (_get_date_range start_date end_date) out).
  { apply Forall2_fmap_l in Hdays. clear Hrun Hdistinct.
    revert out Hout.
    induction Hdays as [|d entry range days' Hentry _ IH]; intros out Hout.
    - inversion Hout. constructor.
    - inversion Hout as [|? recs ? out' Hfmt Hrest]; subst.
      constructor; [|by apply IH].
      simpl in Hentry.
      apply bind_Ok_inv in Hentry as (content & Hcontent & [= <-]).
      by exists content. }
  split; [|exists names, group; repeat split; try done].
  - rewrite <- get_date_range_length. symmetry. by eapply Forall2_length.
  - intros Hsize. rewrite Hsize.
    eapply Forall2_Forall_r; [exact Hrecs|].
    apply Forall_forall. intros d _ recs (content & Hcontent & Hfmt).
    rewrite (format_day_length _ _ Hfmt). simpl. f_equal.
    eapply (complete_day_two_groups _ (tuple_of_set group)); [| | | |exact Hcontent].
    + apply NoDup_elements.
    + done.
    + by apply bucket_of_group_cells.
    + intros row g Hrow Hg. apply elem_of_elements.
      apply (resolve_groups_includes _ _ _ Hgroup).
      apply elem_of_list_to_set.
      apply list_elem_of_filter in Hrow as [_ Hrow].
      apply list_elem_of_lookup in Hrow as [i Hi].
      pose proof (traverse_getitem_lookup _ _ _ Hnames) as Hcells.
      assert (Hcell : map (fun row => row !! "Группа") rows !! i = Some (Some g)).
      { by rewrite list_lookup_fmap, Hi; simpl; rewrite Hg. }
      rewrite Hcells, list_lookup_fmap in Hcell.
      destruct (names !! i) as [name|] eqn:Hn; [|discriminate].
      injection Hcell as ->. by eapply list_elem_of_lookup_2.
Qed.

End day_lists.

(** ** Runs on concrete inputs *)

Import reference examples.

Lemma get_crm_response_run_example :
  _get_crm_response more_examples.steady_session more_examples.header_request
      more_examples.fresh_world
    = (Ok "<html>listing</html>",
       mkWorld
         [Post (mkPosted (AStr "https://crm/reports") (AMapping ∅) (AMapping ∅)
                  (AMapping ∅) (ABool false))]
         1).
Proof. apply (bool_decide_unpack _). vm_compute. exact I. Qed.

Lemma get_crm_response_refused_example :
  (_get_crm_response more_examples.refusing_session more_examples.header_request
     more_examples.fresh_world).1
    = Raise ConnectionsFailed.
Proof. apply (bool_decide_unpack _). vm_compute. exact I. Qed.

(** A request as the builders make it, and a session that would answer 200
    with a page. *)
Lemma naumen_request_is_never_sent_witness :
  _get_crm_response more_examples.steady_session
      (Tuple more_examples.listing_request) more_examples.fresh_world
    = (Raise AttributeError, more_examples.fresh_world).
Proof.
  apply (naumen_request_is_never_sent more_examples.steady_session
           more_examples.listing_request more_examples.fresh_world).
Defined.

Lemma parse_day_lists_witness :
  length two_day_report =
    Z.to_nat (datetime.days_between october_6 october_5 + 1) /\
  exists names group,
    traverse (fun row => getitem row "Группа") two_day_rows = Ok names /\
    resolve_groups groups_config (set_of names) = Ok group /\
    Forall2 (bucket_records october_20 sl_columns group two_day_rows)
      (_get_date_range october_5 october_6) two_day_report /\
    (size group = 2%nat ->
     Forall (fun recs => length recs = S (size group)) two_day_report).
Proof.
  apply (@parse_day_lists Q ref_builtins Page (list string)
           (page_helpers two_day_page) october_20 groups_config ""
           october_5 october_6 sl_columns two_day_rows two_day_report).
  - split; reflexivity.
  - unfold datetime.lt. vm_compute. reflexivity.
  - apply range_within_month_distinct_days; [split; reflexivity | reflexivity].
  - split; [reflexivity|]. eexists. split; reflexivity.
  - apply (bool_decide_unpack _). vm_compute. exact I.
  - vm_compute. reflexivity.
Defined.

(** C1 as stated fails on a report for a single day: the dates are valid
    and in order, [parse] returns the empty sequence, and the claim asks
    for one per-day list. *)
Lemma single_day_report_has_no_day_list : ~ day_lists_as_stated.
Proof.
  intros Hclaim.
  destruct (Hclaim Q ref_builtins Page (list string)
              (page_helpers single_day_page) october_20 groups_config ""
              october_5 october_5 []) as [Hlen _].
  - split; reflexivity.
  - reflexivity.
  - reflexivity.
  - unfold datetime.le. lia.
  - reflexivity.
  - vm_compute in Hlen. discriminate Hlen.
Qed.

(** The bucket of 30 October, empty, completed on 4 November for the two
    groups. *)
Lemma elapsed_day_with_later_number_gets_zero_witness :
  sl_by_date (datetime.mkdate 2022 11 4) (datetime.mkdate 2022 10 30) = "100.0" /\
  exists added rows,
    [(30, [zero_row sl_columns 30 "first" "0.0"; zero_row sl_columns 30 "vip" "0.0"])]
      = [(datetime.day (datetime.mkdate 2022 10 30), [] ++ rows)] /\
    Forall2 (fun g row => is_zero_row row (datetime.day (datetime.mkdate 2022 10 30)) g "0.0")
      added rows /\
    (([] : list (gmap string string)) = [] -> added = ["first"; "vip"]) /\
    (length ([] : list (gmap string string)) = 2%nat -> added = []) /\
    (([] : list (gmap string string)) <> [] ->
     length ([] : list (gmap string string)) <> 2%nat ->
       exists names,
         traverse (fun row => getitem row "Группа") [] = Ok names /\
         added = missing_groups names ["first"; "vip"]).
Proof.
  apply (elapsed_day_with_later_number_gets_zero (datetime.mkdate 2022 11 4)
           (datetime.mkdate 2022 10 30) ["first"; "vip"] sl_columns []
           [(30, [zero_row sl_columns 30 "first" "0.0";
                  zero_row sl_columns 30 "vip" "0.0"])]).
  - reflexivity.
  - unfold datetime.lt. vm_compute. reflexivity.
  - simpl. lia.
  - apply (bool_decide_unpack _). vm_compute. exact I.
Defined.

Lemma total_counts_are_sums_witness :
  Forall2 (fun entry recs => counts_summed entry.2 recs) full_days full_days_report.
Proof.
  apply (@total_counts_are_sums Q ref_builtins full_days full_days_report).
  vm_compute. reflexivity.
Defined.


Lemma budget_two_never_polls_witness :
  _find_report_uuid more_examples.empty_listing_parser more_examples.steady_session
      (more_examples.listing_request, "ID1234567", 5, 2) more_examples.fresh_world
    = (Raise AttributeError, mkWorld [Sleep 5] 0).
Proof.
  apply (budget_two_never_polls more_examples.empty_listing_parser
           more_examples.steady_session more_examples.listing_request
           "ID1234567" 5 more_examples.fresh_world).
  lia.
Defined.

Lemma parse_group_policy_witness :
  parse_page october_20 groups_config renamed_group_page = Raise CantGetData.
Proof.
  refine (proj1 (proj2
    (@parse_group_policy Q ref_builtins Page (list string)
       (page_helpers renamed_group_page) october_20 groups_config ""
       october_5 october_6 sl_columns
       (map (dict_zip sl_columns) (slice_to_last 3 (table_rows renamed_group_page)))
       ["night shift"] _ _ _ _)) _ _).
  - split; reflexivity.
  - reflexivity.
  - split; [reflexivity|]. eexists. split; reflexivity.
  - vm_compute. reflexivity.
  - vm_compute. reflexivity.
  - vm_compute. intros Hsize. discriminate Hsize.
Defined.

Lemma ambiguous_listing_is_never_read_witness :
  let run :=
    _find_report_uuid more_examples.doubling_parser more_examples.steady_session
      (more_examples.listing_request, "ID1234567", 5, 2) more_examples.fresh_world in
  run =
    _find_report_uuid more_examples.empty_listing_parser more_examples.refusing_session
      (more_examples.listing_request, "ID1234567", 5, 2) more_examples.fresh_world /\
  run.1 <> Raise CantGetData /\
  (forall uuid, run.1 <> Ok uuid) /\
  served run.2 = served more_examples.fresh_world.
Proof.
  apply (ambiguous_listing_is_never_read more_examples.doubling_parser
           more_examples.empty_listing_parser more_examples.steady_session
           more_examples.refusing_session
           (more_examples.listing_request, "ID1234567", 5, 2)
           more_examples.fresh_world).
Defined.

Lemma completion_idempotent_when_complete_witness :
  _service_lavel_data_completion october_20 full_days ["first"; "vip"] sl_columns
    = Ok full_days /\
  (_service_lavel_data_completion october_20 full_days ["first"; "vip"] sl_columns ≫=
     fun days' =>
       _service_lavel_data_completion october_6 days' ["first"; "vip"] sl_columns)
    = _service_lavel_data_completion october_20 full_days ["first"; "vip"] sl_columns.
Proof.
  apply (completion_idempotent_when_complete october_20 october_6 full_days
           ["first"; "vip"] sl_columns).
  constructor; [|constructor].
  exists ["first"; "vip"]. split; [vm_compute; reflexivity | reflexivity].
Defined.

Lemma parse_equal_dates_empty_witness :
  parse_page october_20 groups_config single_day_page = Ok [].
Proof.
  apply (@parse_equal_dates_empty Q ref_builtins Page (list string)
           (page_helpers single_day_page) october_20 groups_config "" october_5).
  split; reflexivity.
Defined.

(** X1.  The docstring of the completion step promises 100% for days that
    have passed.  A bucket for 30 October completed on 4 November gets 0.0:
    the step compares the day numbers 30 and 4. *)
Lemma elapsed_day_of_last_month_gets_zero :
  datetime.lt (datetime.mkdate 2022 10 30) (datetime.mkdate 2022 11 4) /\
  _service_lavel_data_completion (datetime.mkdate 2022 11 4) [(30, [])]
      ["first"; "vip"] sl_columns
    = Ok [(30, [zero_row sl_columns 30 "first" "0.0";
                zero_row sl_columns 30 "vip" "0.0"])].
Proof.
  split; [unfold datetime.lt; vm_compute; reflexivity|].
  apply (bool_decide_unpack _). vm_compute. exact I.
Qed.

(** A range over two months has more days than day numbers: 31 October to
    1 December are 32 days in 31 buckets. *)
Lemma two_month_range_shares_buckets :
  length (_get_date_range (datetime.mkdate 2022 10 31) (datetime.mkdate 2022 12 1)) = 32%nat /\
  length (_forming_days_dict
            (_get_date_range (datetime.mkdate 2022 10 31) (datetime.mkdate 2022 12 1))
            [] SERVICE_LEVEL_REPORT_PAGE) = 31%nat.
Proof. split; vm_compute; reflexivity. Qed.


(** * Further properties of the code *)

(** ** The locator: every run *)

Section locator_runs.
Variable parse_naumen_page : string -> string -> PageType -> Result (list string).

(** X2.  No call of the locator finds a report or asks the session for
    anything.  A negative delay is refused by [sleep] before any effect;
    otherwise the locator waits the delay once and raises [AttributeError],
    whatever the attempt budget, the report name, the request and the
    session are. *)
Theorem locator_run_outcome (crm : ActiveConnect)
    (params : request_builders.NaumenRequest * string * Z * Z) (w : World) :
  let run := _find_report_uuid parse_naumen_page crm params w in
  let delay := params.1.2 in
  (delay < 0 -> run = (Raise ValueError, w)) /\
  (0 <= delay ->
   run = (Raise AttributeError, mkWorld (trace w ++ [Sleep delay]) (served w))).
Proof.
  destruct params as [[[request name] delay] n]. cbn [fst snd].
  rewrite find_report_uuid_run.
  destruct (Z.ltb_spec delay 0); split; intros; (done || lia).
Qed.

End locator_runs.

Lemma locator_run_outcome_witness :
  _find_report_uuid more_examples.empty_listing_parser more_examples.steady_session
      (more_examples.listing_request, "ID1234567", -1, 3) more_examples.fresh_world
    = (Raise ValueError, more_examples.fresh_world).
Proof.
  apply (proj1 (locator_run_outcome more_examples.empty_listing_parser
                  more_examples.steady_session
                  (more_examples.listing_request, "ID1234567", -1, 3)
                  more_examples.fresh_world)).
  simpl. lia.
Defined.

(** ** The formatter: shape and failures *)

Section formatter_more.
Context {float : Type} `{!Builtins float}.
Implicit Types (rows : list (gmap string string)).

Lemma format_row_day row rec :
  format_row row = Ok rec ->
  exists cell, row !! "День" = Some cell /\ day rec = DayCell cell.
Proof.
  unfold format_row, getitem. intros Hrow.
  destruct (row !! "День") as [cell|]; [|discriminate]. simpl in Hrow.
  exists cell. split; [done|].
  repeat (apply bind_Ok_inv in Hrow as (? & _ & Hrow)).
  by injection Hrow as <-.
Qed.

Lemma format_rows_cur_day rows (st st' : day_state (float := float)) :
  format_rows rows st = Ok st' ->
  match last rows with
  | None => st' = st
  | Some row => exists cell, row !! "День" = Some cell /\ cur_day st' = DayCell cell
  end.
Proof.
  revert st. induction rows as [|data rest IH]; intros st Hrun; simpl in Hrun.
  - by injection Hrun as <-.
  - apply bind_Ok_inv in Hrun as (sl & Hsl & Hrun).
    specialize (IH _ Hrun). destruct rest as [|data' rest].
    2: { change (last (data :: data' :: rest)) with (last (data' :: rest)).
         destruct (last (data' :: rest)) eqn:Hl; [exact IH|].
         apply last_None in Hl. discriminate. }
    simpl in *. subst st'.
    destruct (format_row_day _ _ Hsl) as (cell & Hcell & Hday).
    exists cell. split; [done|]. exact Hday.
Qed.

(** X5.  The formatter returns one list per day of the dictionary, in the
    dictionary's order, and each list has one record more than the day has
    rows.  The [day] attribute of the closing "Итог" record is the text of
    the day cell of the day's last row; for a day without rows it is the
    dictionary key itself, an int, and the record's counts are all 0 with
    service level [0.0]. *)
Theorem formatter_shape days out :
  _formating_service_level_data days = Ok out ->
  Forall2
    (fun entry recs =>
       length recs = S (length entry.2) /\
       exists total,
         last recs = Some total /\
         match last entry.2 with
         | Some row => exists cell, row !! "День" = Some cell /\ day total = DayCell cell
         | None => total = mkServiceLevel (DayKey entry.1) "Итог" 0 0 0 0 float_zero
         end)
    days out.
Proof.
  intros Hrun. apply traverse_Forall2 in Hrun.
  eapply Forall2_impl; [exact Hrun|].
  intros [key rows] recs Hday. split; [by apply format_day_length|].
  unfold format_day in Hday. cbn [fst snd] in *.
  apply bind_Ok_inv in Hday as (st & Hst & [= <-]).
  exists (total_record st). split; [by rewrite last_snoc|].
  pose proof (format_rows_cur_day _ _ _ Hst) as Hday.
  destruct (last rows) as [row|] eqn:Hlast.
  - destruct Hday as (cell & Hcell & Hday). by exists cell.
  - by subst st.
Qed.

(** X6.  The formatter gives no partial result: when the days before a day
    format, and so do the rows before a row of that day, the exception that
    row raises (a missing column, a cell that is no number) is what the
    whole call raises. *)
Theorem formatter_raises_first_failure days_before key rows_before row rows_after
    days_after (formatted : list (list (ServiceLevel float))) (e : exn) :
  _formating_service_level_data days_before = Ok formatted ->
  Forall (fun r => exists rec, format_row r = Ok rec) rows_before ->
  format_row row = Raise e ->
  _formating_service_level_data
    (days_before ++ (key, rows_before ++ row :: rows_after) :: days_after)
    = Raise e.
Proof.
  intros Hbefore Hrows Hrow. unfold _formating_service_level_data in *.
  revert formatted Hbefore.
  induction days_before as [|entry days_before IH]; intros formatted Hbefore.
  - simpl. unfold format_day. cbn [fst snd].
    assert (Hfail : forall st, format_rows (rows_before ++ row :: rows_after) st
                               = Raise e).
    { clear -Hrows Hrow. induction Hrows as [|r rows_before [rec Hr] _ IH];
        intros st; simpl.
      - by rewrite Hrow.
      - rewrite Hr. simpl. apply IH. }
    by rewrite Hfail.
  - simpl in Hbefore. apply bind_Ok_inv in Hbefore as (recs & Hentry & Hbefore).
    apply bind_Ok_inv in Hbefore as (rest & Hrest & _).
    simpl. rewrite Hentry. simpl. by rewrite (IH rest Hrest).
Qed.

(** A row without a group cell is reported as [KeyError] on that column. *)
Lemma format_row_missing_group row cell :
  row !! "День" = Some cell -> row !! "Группа" = None ->
  format_row row = Raise (KeyError "Группа").
Proof. intros Hday Hgroup. unfold format_row, getitem. by rewrite Hday, Hgroup. Qed.

End formatter_more.

(** ** The completion step: coverage and failures *)

Section completion_more.
Implicit Types (content : list (gmap string string)) (groups lable : list string).

Lemma traverse_getitem_Ok (key : string) content :
  Forall (fun row => is_Some (row !! key)) content ->
  exists names, traverse (fun row => getitem row key) content = Ok names.
Proof.
  induction 1 as [|row content [cell Hcell] _ [names IH]]; [by exists []|].
  exists (cell :: names).
  assert (Hget : getitem row key = Ok cell) by (unfold getitem; by rewrite Hcell).
  cbn [traverse]. by rewrite Hget, IH.
Qed.

Lemma traverse_getitem_Raise (key : string) content e :
  traverse (fun row => getitem row key) content = Raise e ->
  e = KeyError key /\ exists row, row ∈ content /\ row !! key = None.
Proof.
  induction content as [|row content IH]; [discriminate|]. cbn [traverse].
  destruct (row !! key) as [cell|] eqn:Hcell.
  - assert (Hget : getitem row key = Ok cell) by (unfold getitem; by rewrite Hcell).
    rewrite Hget. simpl.
    destruct (traverse _ content) as [names|e'] eqn:Hrest; [discriminate|].
    intros [= ->]. destruct (IH eq_refl) as [-> (row' & Hin & Hnone)].
    split; [done|]. exists row'. split; [by right|done].
  - assert (Hget : getitem row key = Raise (KeyError key))
      by (unfold getitem; by rewrite Hcell).
    rewrite Hget. simpl.
    intros [= <-]. split; [done|]. exists row. split; [by left|done].
Qed.

(** X7.  The completion step can fail in one way only: with [KeyError] on
    the group column, raised by a row without a group cell in a day whose
    row count is neither 0 nor 2.  Days of exactly two rows are not looked
    at, whatever their rows hold. *)
Theorem completion_fails_only_on_missing_group now days groups lable e :
  _service_lavel_data_completion now days groups lable = Raise e ->
  e = KeyError "Группа" /\
  exists entry row,
    entry ∈ days /\ row ∈ entry.2 /\ row !! "Группа" = None /\
    length entry.2 <> 0%nat /\ length entry.2 <> 2%nat.
Proof.
  unfold _service_lavel_data_completion.
  induction days as [|[day content] days IH]; [discriminate|]. simpl.
  destruct (complete_day (datetime.day now) groups lable day content)
    as [content'|e'] eqn:Hday; simpl.
  - destruct (traverse _ days) as [days'|e''] eqn:Hrest; [discriminate|].
    intros [= ->]. destruct (IH eq_refl) as [-> (entry & row & Hin & Hrow)].
    split; [done|]. exists entry, row. split; [by right|done].
  - intros [= <-]. unfold complete_day in Hday.
    destruct (Nat.eqb_spec (length content) 0) as [H0|H0]; [discriminate|].
    destruct (Nat.eqb_spec (length content) 2) as [H2|H2]; [discriminate|].
    simpl in Hday.
    destruct (traverse _ content) as [names|e''] eqn:Hnames; [discriminate|].
    injection Hday as <-.
    destruct (traverse_getitem_Raise _ _ _ Hnames) as [-> (row & Hin & Hnone)].
    split; [done|]. exists (day, content), row. split; [by left|done].
Qed.

(** X8.  After the completion step, every day that did not hold exactly two
    rows has a row for each known group, and the dictionary keeps its keys
    and their order. *)
Theorem completion_covers_known_groups now days groups lable days' :
  take 7 lable = reference.sl_columns ->
  _service_lavel_data_completion now days groups lable = Ok days' ->
  days'.*1 = days.*1 /\
  Forall2
    (fun entry entry' =>
       length entry.2 <> 2%nat ->
       forall g, g ∈ groups ->
         exists row, row ∈ entry'.2 /\ row !! "Группа" = Some g)
    days days'.
Proof.
  intros Hlable Hrun.
  assert (Hfilled : Forall2 (filled_by_design now groups) days days').
  { apply traverse_Forall2 in Hrun. eapply Forall2_impl; [exact Hrun|].
    intros [day content] entry' Hday. simpl in Hday.
    apply bind_Ok_inv in Hday as (content' & Hc & [= <-]).
    by apply (complete_day_filled now groups lable). }
  split.
  - clear Hrun. induction Hfilled as [|entry entry' days days' [Hkey _] _ IH];
      [done|]. rewrite !fmap_cons. by f_equal.
  - eapply Forall2_impl; [exact Hfilled|].
    intros entry entry' (_ & added & rows & sl & Hrows & Hzero & _ & Hempty & _ & Hsome)
      Hlen g Hg.
    assert (Hadded : forall g', g' ∈ added ->
              exists row, row ∈ rows /\ row !! "Группа" = Some g').
    { clear -Hzero. induction Hzero as [|g0 row added rows Hrow _ IH];
        intros g' Hin; [by apply not_elem_of_nil in Hin|].
      apply elem_of_cons in Hin as [->|Hin].
      - exists row. split; [by left|]. by destruct Hrow as (_ & ? & _).
      - destruct (IH g' Hin) as (row' & Hin' & Hcell).
        exists row'. split; [by right|done]. }
    destruct (decide (entry.2 = [])) as [Hnil|Hnil].
    + destruct (Hadded g) as (row & Hin & Hcell); [by rewrite (Hempty Hnil)|].
      exists row. split; [|done]. rewrite Hrows. apply elem_of_app. by right.
    + destruct (Hsome Hnil Hlen) as (names & Hnames & ->).
      destruct (decide (g ∈ names)) as [Hin|Hout].
      * apply list_elem_of_lookup in Hin as [i Hi].
        pose proof (traverse_getitem_lookup _ _ _ Hnames) as Hcells.
        assert (Hcell : map (fun row => row !! "Группа") entry.2 !! i = Some (Some g)).
        { by rewrite Hcells, list_lookup_fmap, Hi. }
        rewrite list_lookup_fmap in Hcell.
        destruct (entry.2 !! i) as [row|] eqn:Hrow; [|discriminate].
        injection Hcell as Hcell. exists row. split; [|done].
        rewrite Hrows. apply elem_of_app. left. by eapply list_elem_of_lookup_2.
      * destruct (Hadded g) as (row & Hin & Hcell).
        { apply list_elem_of_filter. done. }
        exists row. split; [|done]. rewrite Hrows. apply elem_of_app. by right.
Qed.

End completion_more.

(** ** Building the requests *)

Section erector.
Import request_builders.

Lemma fold_insert_snoc (pairs : list (string * string)) (kv : string * string)
    (acc : gmap string string) :
  fold_left (fun d kv => <[kv.1 := kv.2]> d) (pairs ++ [kv]) acc
  = <[kv.1 := kv.2]> (fold_left (fun d kv => <[kv.1 := kv.2]> d) pairs acc).
Proof. by rewrite fold_left_app. Qed.

Lemma traverse_snoc {A B : Type} (f : A -> Result B) (xs : list A) (x : A) :
  traverse f (xs ++ [x]) =
    (ys ← traverse f xs; y ← f x; Ok (ys ++ [y])).
Proof.
  induction xs as [|x' xs IH]; simpl.
  - by destruct (f x).
  - destruct (f x') as [y'|e]; simpl; [|done]. rewrite IH.
    destruct (traverse f xs) as [ys|e]; simpl; [|done].
    by destruct (f x).
Qed.

(** X9.  [_params_erector] returns a dictionary exactly when every field of
    its argument has two members, and raises [ValueError] otherwise; in the
    dictionary a name is bound to the value of the last field that has this
    name, so of two fields with one name only the later one is submitted.
    The keys of the fields and of their members play no part. *)
Theorem params_erector_result (params : Fields) :
  (Forall (fun root => length root.2 = 2%nat) params ->
   exists d, _params_erector params = Ok d /\
             forall n, d !! n = last_value n params) /\
  (~ Forall (fun root => length root.2 = 2%nat) params ->
   _params_erector params = Raise ValueError).
Proof.
  unfold _params_erector, last_value.
  induction params as [|root params IH] using rev_ind.
  - split; [|intros Hn; destruct Hn; constructor].
    intros _. exists ∅. split; [done|]. intros n. apply lookup_empty.
  - rewrite traverse_snoc. destruct IH as [IHok IHbad]. split.
    + intros Hall. apply Forall_app in Hall as [Hall Hroot].
      apply Forall_inv in Hroot.
      destruct (IHok Hall) as (d & Hd & Hlook).
      apply bind_Ok_inv in Hd as (pairs & Hpairs & [= <-]).
      rewrite Hpairs. simpl. unfold field_pair.
      destruct root as [key [|[k1 k] [|[k2 v] [|? ?]]]]; try discriminate Hroot.
      simpl. eexists. split; [reflexivity|]. intros n.
      rewrite fold_insert_snoc, omap_app, last_app. simpl.
      destruct (String.eqb_spec k n) as [->|Hne]; simpl.
      * by rewrite lookup_insert_eq.
      * rewrite lookup_insert_ne by done. apply Hlook.
    + intros Hbad.
      destruct (decide (Forall (fun root => length root.2 = 2%nat) params))
        as [Hall|Hnot].
      * destruct (IHok Hall) as (d & Hd & _).
        apply bind_Ok_inv in Hd as (pairs & Hpairs & _).
        rewrite Hpairs. simpl. unfold field_pair.
        destruct root as [key [|[k1 k] [|[k2 v] [|? ?]]]]; try done.
        destruct Hbad. apply Forall_app. split; [done|]. by constructor.
      * specialize (IHbad Hnot).
        destruct (traverse field_pair params) as [pairs|e]; [discriminate|].
        simpl in *. done.
Qed.

End erector.

Section builders_more.
Import request_builders.
Variable get_params_create_report : string -> Result ReportParams.

Lemma well_formed_erector (fields : Fields) (pairs : list (string * string)) :
  well_formed fields pairs ->
  _params_erector fields = Ok (list_to_map pairs).
Proof.
  intros (Hshape & _ & Hnames). unfold _params_erector.
  assert (Hpairs : traverse field_pair fields = Ok pairs).
  { apply traverse_Forall2. eapply Forall2_impl; [exact Hshape|].
    intros [key inner] [n v] Hinner. simpl in Hinner. unfold field_pair.
    simpl. by rewrite Hinner. }
  rewrite Hpairs. simpl. f_equal. apply map_eq. intros k.
  clear Hshape Hpairs.
  induction pairs as [|[n v] pairs IH] using rev_ind; [done|].
  rewrite fold_insert_snoc. simpl.
  rewrite fmap_app in Hnames. apply NoDup_app in Hnames as (Hnd & Hfresh & _).
  destruct (decide (n = k)) as [->|Hne].
  - rewrite lookup_insert_eq. symmetry.
    apply elem_of_list_to_map.
    + rewrite fmap_app. apply NoDup_app. split; [done|]. split; [done|].
      apply NoDup_singleton.
    + apply elem_of_app. right. by left.
  - rewrite lookup_insert_ne by done. rewrite (IH Hnd).
    destruct (list_to_map pairs !! k) as [v'|] eqn:Hk.
    + symmetry. apply elem_of_list_to_map.
      * rewrite fmap_app. apply NoDup_app. split; [done|]. split; [done|].
        apply NoDup_singleton.
      * apply elem_of_app. left. by apply elem_of_list_to_map.
    + symmetry. apply not_elem_of_list_to_map.
      rewrite fmap_app, not_elem_of_app. split.
      * by apply not_elem_of_list_to_map.
      * simpl. rewrite list_elem_of_singleton. congruence.
Qed.

Lemma field_name_well_formed (fields : Fields) pairs field n :
  well_formed fields pairs ->
  field_name field fields = Some n ->
  n ∈ pairs.*1.
Proof.
  intros (Hshape & _ & _). unfold field_name.
  induction Hshape as [|[key inner] [n' v'] fields pairs Hinner _ IH]; [done|].
  simpl in *. destruct (String.eqb key field).
  - rewrite Hinner. intros [= <-]. left.
  - intros Hn. right. by apply IH.
Qed.

(** Assigning a field's value keeps the fields well formed: the pair of the
    field's name now carries the new value. *)
Lemma set_value_well_formed (fields : Fields) pairs field n x :
  well_formed fields pairs ->
  field_name field fields = Some n ->
  exists fields' pairs',
    set_value field x fields = Ok fields' /\
    well_formed fields' pairs' /\
    (list_to_map pairs' : gmap string string) = <[n := x]> (list_to_map pairs) /\
    pairs'.*1 = pairs.*1 /\
    (forall g, field_name g fields' = field_name g fields).
Proof.
  intros (Hshape & Hkeys & Hnames). unfold set_value, field_name, well_formed.
  revert Hkeys Hnames.
  induction Hshape as [|[key inner] [n' v'] fields pairs Hinner Hshape IH];
    intros Hkeys Hnames Hfield; [done|].
  simpl in Hinner, Hfield, Hkeys, Hnames |- *.
  apply NoDup_cons in Hkeys as [Hkey Hkeys].
  apply NoDup_cons in Hnames as [Hname Hnames].
  destruct (String.eqb_spec key field) as [->|Hne].
  - rewrite Hinner in Hfield |- *. injection Hfield as <-.
    exists ((field, [("name", n'); ("value", x)]) :: fields), ((n', x) :: pairs).
    split; [done|]. split; [|split; [|split]].
    + split; [by constructor|]. split; by constructor.
    + simpl. by rewrite insert_insert_eq.
    + done.
    + intros g. simpl. by destruct (String.eqb field g).
  - destruct (odict_get field fields) as [inner'|] eqn:Hget; [|done].
    destruct (IH Hkeys Hnames Hfield)
      as (fields' & pairs' & Hset & Hwf & Hmap & Hdom & Hsame).
    injection Hset as <-. destruct Hwf as (Hshape' & Hkeys' & Hnames').
    exists ((key, inner) :: odict_set field
              (odict_set "value" x inner') fields), ((n', v') :: pairs').
    split; [done|]. split; [|split; [|split]].
    + split; [by constructor|]. split.
      * constructor; [|done]. clear -Hkey Hne.
        induction fields as [|[k' i'] fields IH]; simpl.
        { rewrite list_elem_of_singleton. congruence. }
        simpl in Hkey. rewrite not_elem_of_cons in Hkey. destruct Hkey as [Hk Hkey].
        destruct (String.eqb k' field); simpl.
        -- rewrite not_elem_of_cons. done.
        -- rewrite not_elem_of_cons. split; [done|]. by apply IH.
      * rewrite fmap_cons. constructor; [|done]. by rewrite Hdom.
    + simpl. rewrite Hmap. apply insert_insert_ne.
      intros <-. apply Hname.
      apply (field_name_well_formed fields pairs field); [by split|].
      unfold field_name. by rewrite Hget.
    + by rewrite !fmap_cons, Hdom.
    + intros g. simpl. destruct (String.eqb key g); [done|]. apply Hsame.
Qed.


(** X11.  For a well-formed configuration each of the two issue-list
    builders submits the configured form data with the title replaced by
    the generated report name, and hands the locator that same name. *)
Theorem issues_requests token cfg pairs query nt :
  well_formed (cfg_data cfg) pairs ->
  field_name "title" (cfg_data cfg) = Some nt ->
  _params_erector (cfg_params cfg) = Ok query ->
  let built :=
    Ok (mkNaumenRequest (cfg_url cfg) (cfg_headers cfg) query
          (<[nt := _get_report_name token]> (list_to_map pairs))
          (cfg_verify cfg),
        mkSearchOptions (_get_report_name token) (cfg_delay_attems cfg)
          (cfg_num_attems cfg) (cfg_uuid cfg)) in
  (get_params_create_report "issues" = Ok cfg ->
   _create_request_issues_first_line get_params_create_report token = built) /\
  (get_params_create_report "vip issues" = Ok cfg ->
   _create_request_issues_vip_line get_params_create_report token = built).
Proof.
  intros Hwf Ht Hquery built.
  destruct (set_value_well_formed _ _ "title" nt (_get_report_name token) Hwf Ht)
    as (data1 & pairs1 & Hset & Hwf1 & Hmap1 & _ & _).
  split; intros Hcfg.
  - unfold _create_request_issues_first_line. rewrite Hcfg. simpl.
    rewrite Hset. simpl. rewrite (well_formed_erector _ _ Hwf1). simpl.
    rewrite Hquery. simpl. unfold built. by rewrite Hmap1.
  - unfold _create_request_issues_vip_line. rewrite Hcfg. simpl.
    rewrite Hset. simpl. rewrite (well_formed_erector _ _ Hwf1). simpl.
    rewrite Hquery. simpl. unfold built. by rewrite Hmap1.
Qed.

End builders_more.

(** ** The [Client] class *)

Section client_more.
Import api api_vocabulary.
Context {float : Type} `{!Builtins float}.
Context {Session Content Formatter Formatted : Type}.
Context `{!Transceiver Session Content Formatter Formatted}.
Implicit Types (self : Client Session Formatter) (request : Fetch).

Lemma get_response_client self report mod_params mod_data kwargs :
  client (_get_response self report mod_params mod_data kwargs) = self /\
  (length (calls (_get_response self report mod_params mod_data kwargs)) <= 1)%nat /\
  (_session self = None ->
   _get_response self report mod_params mod_data kwargs
     = mkRun (Done (not_authorized self)) self []).
Proof.
  unfold _get_response, not_authorized.
  destruct (_session self) as [session|]; [|by auto].
  split; [|split; [|done]].
  - destruct report as [r|r]; cbn [fst snd];
      [destruct (get_report _ _ _ _ _) as [c|[[]| | |]]
      |destruct (search _ _ _ _ _) as [c|[[]| | |]]]; done.
  - destruct report as [r|r]; cbn [fst snd];
      [destruct (get_report _ _ _ _ _) as [c|[[]| | |]]
      |destruct (search _ _ _ _ _) as [c|[[]| | |]]]; simpl; lia.
Qed.

(** The call of the report methods: a keyword given twice ends it before
    the body of [_get_response] runs. *)
Lemma get_response_with_client self report mod_params mod_data kwargs :
  client (_get_response_with self report mod_params mod_data kwargs) = self /\
  (length (calls (_get_response_with self report mod_params mod_data kwargs)) <= 1)%nat.
Proof.
  unfold _get_response_with. destruct (given_twice kwargs).
  - split; [done | simpl; lia].
  - split; apply get_response_client.
Qed.

(** X12.  No method that fetches data changes the client: credentials,
    formatter and session are after the call what they were before it,
    whatever the transceiver answered or raised (a session the backend
    refused is kept).  Each call makes at most one transceiver call. *)
Theorem fetch_keeps_client self request :
  client (fetch self request) = self /\
  (length (calls (fetch self request)) <= 1)%nat.
Proof.
  destruct request; simpl;
    unfold search_issue, get_issues, get_issue_card, get_sl_report,
      get_mttr_report, get_flr_report, get_aht_report;
    try (split; apply get_response_client);
    try apply get_response_with_client.
  destruct (int_of_value deadline) as [[z|]|e]; simpl;
    [apply get_response_with_client | split; [done|lia] | split; [done|lia]].
Qed.



(** X15.  [connect] without complete credentials, neither given nor
    stored, answers [_UNAUTHORIZED] and does nothing else.  Otherwise it
    asks for a session once, with the given credentials when they are
    complete and with the stored ones when they are not (a partial set of
    given credentials is ignored), and stores the credentials it used before
    it asks.  A new session replaces the old one; when the transceiver
    raises, [ConnectionsFailed] included, the old session stays. *)
Theorem connect_outcome self given :
  (complete given = false -> complete (credentials self) = false ->
   connect self given =
     mkRun (Done (make_response (mkTemplate _UNAUTHORIZED None no_content)
                    (formatter self)))
       self []) /\
  (complete given = true \/ complete (credentials self) = true ->
   let used := if complete given then given else credentials self in
   let run := connect self given in
   calls run = [CallGetSession used.1.1 used.1.2 used.2] /\
   credentials (client run) = used /\
   formatter (client run) = formatter self /\
   match get_session used.1.1 used.1.2 used.2 with
   | Done session =>
       _session (client run) = Some session /\
       result run =
         Done (make_response (mkTemplate _SUCCESS None no_content) (formatter self))
   | Propagated (Repo ConnectionsFailed) =>
       _session (client run) = _session self /\
       result run =
         Done (make_response (mkTemplate _UNAUTHORIZED None no_content)
                 (formatter self))
   | Propagated e =>
       _session (client run) = _session self /\ result run = Propagated e
   end).
Proof.
  unfold complete, connect. split.
  - intros -> ->. done.
  - intros Hsome.
    assert (Hor : all_ [given.1.1; given.1.2; given.2]
                  || all_ [(credentials self).1.1; (credentials self).1.2;
                           (credentials self).2] = true).
    { destruct Hsome as [-> | ->]; [done|]. by rewrite orb_true_r. }
    rewrite Hor. cbn [negb].
    destruct (all_ [given.1.1; given.1.2; given.2]) eqn:Hgiven.
    + destruct given as [[u p] d]. cbn [fst snd with_credentials credentials
        username password domain formatter _session].
      destruct (get_session u p d) as [session|[[]| | |]]; done.
    + destruct (get_session _ _ _) as [session|[[]| | |]]; done.
Qed.

Lemma connect_stores_session self given session :
  complete given = true \/ complete (credentials self) = true ->
  (let used := if complete given then given else credentials self in
   get_session used.1.1 used.1.2 used.2 = Done session) ->
  _session (client (connect self given)) = Some session.
Proof.
  unfold complete, connect. intros Hsome Hsession. cbv zeta in Hsession.
  assert (Hor : all_ [given.1.1; given.1.2; given.2]
                || all_ [(credentials self).1.1; (credentials self).1.2;
                         (credentials self).2] = true).
  { destruct Hsome as [-> | ->]; [done|]. by rewrite orb_true_r. }
  rewrite Hor. cbn [negb].
  destruct (all_ [given.1.1; given.1.2; given.2]) eqn:Hgiven.
  - destruct given as [[u p] d]. cbn [fst snd with_credentials credentials
      username password domain formatter _session] in *.
    by rewrite Hsession.
  - by rewrite Hsession.
Qed.


End client_more.

(** ** Completion followed by formatting *)

Section completion_then_formatting.
Context {float : Type} `{!Builtins float}.
Implicit Types (content rows : list (gmap string string)).

Lemma format_rows_app rows rows' (st : day_state (float := float)) :
  format_rows (rows ++ rows') st = (st' ← format_rows rows st; format_rows rows' st').
Proof.
  revert st. induction rows as [|row rows IH]; intros st; simpl; [done|].
  destruct (format_row row) as [sl|e]; simpl; [apply IH|done].
Qed.

Lemma complete_day_shape today groups lable day content content' :
  complete_day today groups lable day content = Ok content' ->
  exists added,
    content' =
      content ++ map (fun g => zero_row lable day g (sl_of_day today day)) added.
Proof.
  unfold complete_day.
  destruct (Nat.eqb_spec (length content) 0) as [H0|H0].
  - intros [= <-]. destruct content; [|discriminate]. by exists groups.
  - destruct (Nat.eqb_spec (length content) 2) as [H2|H2]; simpl.
    + intros [= <-]. exists []. by rewrite app_nil_r.
    + intros Hrun. apply bind_Ok_inv in Hrun as (names & _ & [= <-]).
      rewrite append_missing_app. by eexists.
Qed.

(** Formatting the rows the completion step adds leaves the running sums
    as they are. *)
Lemma format_zero_rows lable today day (added : list string)
    (st : day_state (float := float)) (hundred zero : float) :
  take 7 lable = reference.sl_columns ->
  py_int "0" = Ok 0 ->
  py_float "100.0" = Ok hundred ->
  py_float "0.0" = Ok zero ->
  exists st',
    format_rows (map (fun g => zero_row lable day g (sl_of_day today day)) added) st
      = Ok st' /\
    gen_total_issues st' = gen_total_issues st /\
    gen_total_primary_issues st' = gen_total_primary_issues st /\
    gen_num_issues_before_deadline st' = gen_num_issues_before_deadline st /\
    gen_num_issues_after_deadline st' = gen_num_issues_after_deadline st.
Proof.
  intros Hlable Hint H100 H0. revert st.
  induction added as [|g added IH]; intros st; [by exists st|].
  assert (Hsl : exists x, py_float (sl_of_day today day) = Ok x).
  { unfold sl_of_day. destruct (today >=? day); eauto. }
  destruct Hsl as [x Hx].
  pose proof (zero_row_cells lable day g (sl_of_day today day) Hlable)
    as (Hday & Hg & H1 & H2 & H3 & H4 & H5).
  assert (Hrow : format_row (zero_row lable day g (sl_of_day today day))
                 = Ok (mkServiceLevel (DayCell (str day)) g 0 0 0 0 x)).
  { unfold format_row, getitem.
    rewrite Hday, Hg, H1, H2, H3, H4, H5. simpl. rewrite Hint. simpl.
    by rewrite Hx. }
  cbn [map format_rows]. rewrite Hrow. simpl.
  destruct (IH (accumulate st (mkServiceLevel (DayCell (str day)) g 0 0 0 0 x)))
    as (st' & Hrun & Ha & Hb & Hc & Hd).
  exists st'. split; [done|]. simpl in *. repeat split; lia.
Qed.

(** X17.  Filling the gaps cannot break the formatter nor move a total:
    when the rows of the report format before the completion step, the
    completed days format as well, and each day's "Итог" record has the
    same four counts and the same service level as it would have had
    without the added rows. *)
Theorem completion_keeps_totals now days groups lable days'
    (out : list (list (ServiceLevel float))) (hundred zero : float) :
  take 7 lable = reference.sl_columns ->
  py_int "0" = Ok 0 ->
  py_float "100.0" = Ok hundred ->
  py_float "0.0" = Ok zero ->
  _service_lavel_data_completion now days groups lable = Ok days' ->
  _formating_service_level_data days = Ok out ->
  exists out',
    _formating_service_level_data days' = Ok out' /\
    Forall2
      (fun recs recs' =>
         exists total total',
           last recs = Some total /\ last recs' = Some total' /\
           total_issues total' = total_issues total /\
           total_primary_issues total' = total_primary_issues total /\
           num_issues_before_deadline total' = num_issues_before_deadline total /\
           num_issues_after_deadline total' = num_issues_after_deadline total /\
           service_level total' = service_level total)
      out out'.
Proof.
  intros Hlable Hint H100 H0 Hrun Hout.
  unfold _service_lavel_data_completion in Hrun.
  unfold _formating_service_level_data in *.
  apply traverse_Forall2 in Hrun. apply traverse_Forall2 in Hout.
  revert out Hout.
  induction Hrun as [|[day content] entry' days days' Hday _ IH]; intros out Hout.
  - inversion Hout. exists []. split; [done|constructor].
  - inversion Hout as [|? recs ? out0 Hfmt Hrest]; subst.
    destruct (IH _ Hrest) as (out' & Hout' & Hall).
    simpl in Hday. apply bind_Ok_inv in Hday as (content' & Hcontent & [= <-]).
    destruct (complete_day_shape _ _ _ _ _ _ Hcontent) as [added ->].
    unfold format_day in Hfmt. cbn [fst snd] in Hfmt.
    apply bind_Ok_inv in Hfmt as (st & Hst & [= <-]).
    destruct (format_zero_rows lable (datetime.day now) day added st hundred zero
                Hlable Hint H100 H0) as (st' & Hst' & Ha & Hb & Hc & Hd).
    exists ((day_collection st' ++ [total_record st']) :: out').
    assert (Hfmt' :
      format_day
        (day, content ++
              map (fun g => zero_row lable day g (sl_of_day (datetime.day now) day))
                added)
      = Ok (day_collection st' ++ [total_record st'])).
    { unfold format_day. cbn [fst snd].
      rewrite format_rows_app, Hst. simpl. by rewrite Hst'. }
    split.
    + cbn [traverse]. cbn [fst snd]. rewrite Hfmt'. simpl. by rewrite Hout'.
    + constructor; [|done].
      exists (total_record st), (total_record st').
      rewrite !last_snoc. simpl. rewrite Ha, Hc. done.
Qed.

End completion_then_formatting.

(** ** Further runs on concrete inputs *)

Section more_runs.
Import more_examples.

Lemma formatter_shape_witness :
  Forall2
    (fun entry recs =>
       length recs = S (length entry.2) /\
       exists total,
         last recs = Some total /\
         match last entry.2 with
         | Some row => exists cell, row !! "День" = Some cell /\ day total = DayCell cell
         | None => total = mkServiceLevel (DayKey entry.1) "Итог" 0 0 0 0 float_zero
         end)
    sparse_days sparse_days_report.
Proof.
  apply (@formatter_shape Q ref_builtins sparse_days sparse_days_report).
  vm_compute. reflexivity.
Defined.

Lemma formatter_raises_first_failure_witness :
  _formating_service_level_data (full_days ++ (6, [] ++ bare_row :: []) :: [])
    = Raise (KeyError "Группа") :> Result (list (list (ServiceLevel Q))).
Proof.
  apply (@formatter_raises_first_failure Q ref_builtins full_days 6 [] bare_row
           [] [] full_days_report (KeyError "Группа")).
  - vm_compute. reflexivity.
  - constructor.
  - vm_compute. reflexivity.
Defined.

Lemma completion_fails_only_on_missing_group_witness :
  KeyError "Группа" = KeyError "Группа" /\
  exists entry row,
    entry ∈ [(6, [bare_row])] /\ row ∈ entry.2 /\ row !! "Группа" = None /\
    length entry.2 <> 0%nat /\ length entry.2 <> 2%nat.
Proof.
  apply (completion_fails_only_on_missing_group october_20 [(6, [bare_row])]
           ["first"; "vip"] sl_columns (KeyError "Группа")).
  vm_compute. reflexivity.
Defined.

Lemma completion_covers_known_groups_witness :
  sparse_days_completed.*1 = sparse_days.*1 /\
  Forall2
    (fun entry entry' =>
       length entry.2 <> 2%nat ->
       forall g, g ∈ ["first"; "vip"] ->
         exists row, row ∈ entry'.2 /\ row !! "Группа" = Some g)
    sparse_days sparse_days_completed.
Proof.
  apply (completion_covers_known_groups october_20 sparse_days ["first"; "vip"]
           sl_columns sparse_days_completed).
  - reflexivity.
  - apply (bool_decide_unpack _). vm_compute. exact I.
Defined.

Lemma completion_keeps_totals_witness :
  exists out',
    _formating_service_level_data sparse_days_completed = Ok out' /\
    Forall2
      (fun recs recs' : list (ServiceLevel Q) =>
         exists total total',
           last recs = Some total /\ last recs' = Some total' /\
           total_issues total' = total_issues total /\
           total_primary_issues total' = total_primary_issues total /\
           num_issues_before_deadline total' = num_issues_before_deadline total /\
           num_issues_after_deadline total' = num_issues_after_deadline total /\
           service_level total' = service_level total)
      sparse_days_report out'.
Proof.
  apply (@completion_keeps_totals Q ref_builtins october_20 sparse_days
           ["first"; "vip"] sl_columns sparse_days_completed sparse_days_report
           (Qmake 100 1) (Qmake 0 1)).
  - reflexivity.
  - reflexivity.
  - vm_compute. reflexivity.
  - vm_compute. reflexivity.
  - apply (bool_decide_unpack _). vm_compute. exact I.
  - vm_compute. reflexivity.
Defined.

End more_runs.

Section builder_runs.
Import more_examples request_builders.

Lemma sl_config_well_formed : well_formed (cfg_data sl_config) sl_config_pairs.
Proof.
  split; [repeat constructor|].
  split; apply (bool_decide_unpack _); vm_compute; exact I.
Qed.


Lemma issues_requests_witness :
  _create_request_issues_first_line configured 1234567 =
    Ok (mkNaumenRequest "https://crm/report" ∅ ∅
          (<["title" := "ID1234567"]> (list_to_map sl_config_pairs)) false,
        mkSearchOptions "ID1234567" 5 3 "reports-folder").
Proof.
  apply (proj1 (issues_requests configured 1234567 sl_config sl_config_pairs ∅
                  "title" sl_config_well_formed eq_refl eq_refl)).
  reflexivity.
Defined.

End builder_runs.

Section client_runs.
Import more_examples api api_vocabulary.


(** A keyword named [report] collides with the report the method passes. *)
Lemma keyword_given_twice_example :
  fetch (float := Q) new_client
      (GetMttrReport "01.10.2022" "31.10.2022" [("report", VStr "weekly")])
    = mkRun (Propagated TypeError) new_client [].
Proof. reflexivity. Qed.


End client_runs.
